(** * Web scraper: fetch -> parse pipeline and its thread/queue runner

    A shallow embedding of [src/webscraper.py]: the [Scraper] class
    ([fetch], [parse], [scrape]) and the part of [ScraperApp] that runs a
    scrape on a worker thread and polls [result_queue] from the Tk loop
    ([start_scrape], [_run_scrape], [check_queue]). *)

From Stdlib Require Import ZArith NArith Ascii String DecimalString.
From stdpp Require Import base option list gmap.

#[local] Set Warnings "-register-all".
Local Open Scope Z_scope.

(** ** Python strings

    A Python [str] is a sequence of Unicode code points; [len] counts code
    points and [s[:n]] keeps the first [n] of them. *)

Abbreviation char := N (only parsing).
Abbreviation str := (list N) (only parsing).

(** A literal of the development, read as the code points of its bytes
    (all literals used below are ASCII). *)
Definition py (s : string) : str :=
  N_of_ascii <$> list_ascii_of_string s.

(** [str.isspace] on one code point: the characters Python treats as
    whitespace ([Py_UNICODE_ISSPACE]). *)
Definition isspace (c : char) : bool :=
  ((9 <=? c) && (c <=? 13) || (28 <=? c) && (c <=? 32)
   || (c =? 133) || (c =? 160) || (c =? 5760)
   || (8192 <=? c) && (c <=? 8202)
   || (c =? 8232) || (c =? 8233) || (c =? 8239) || (c =? 8287)
   || (c =? 12288))%N.

Fixpoint lstrip (s : str) : str :=
  match s with
  | [] => []
  | c :: s' => if isspace c then lstrip s' else s
  end.

Definition rstrip (s : str) : str := reverse (lstrip (reverse s)).

(** [s.strip()] *)
Definition strip (s : str) : str := rstrip (lstrip s).

(** Truth value of a string in a condition: non-empty. *)
Definition truthy (s : str) : bool :=
  match s with [] => false | _ => true end.

(** [str(n)] for an integer. *)
Definition str_of_int (n : Z) : str := py (NilZero.string_of_int (Z.to_int n)).

(** [enumerate(l, start=k)] *)
Fixpoint enumerate {A} (start : Z) (l : list A) : list (Z * A) :=
  match l with
  | [] => []
  | x :: l' => (start, x) :: enumerate (start + 1) l'
  end.

(** ** The parsed document (bs4)

    What [BeautifulSoup(html, "html.parser")] builds: tags holding an
    attribute dictionary and a list of children, and strings of several
    classes.  A tag records which string classes count as its text
    ([interesting_string_types]); comments, doctypes and the like are
    strings of other classes.  An attribute value is a string, or a list of
    strings for the attributes bs4 treats as multi-valued ([class], [rel],
    [headers], ...). *)

Inductive string_class :=
| NavigableString | CData | Comment | ProcessingInstruction | Declaration
| Doctype | Stylesheet | Script | TemplateString.

#[global] Instance string_class_eq_dec : EqDecision string_class.
Proof. solve_decision. Defined.

Inductive attr_value :=
| AttrStr (s : str)
| AttrList (l : list str).

Record PageString := mkString {
  string_type : string_class;
  string_value : str }.

Inductive Tag := mkTag {
  name : str;
  attrs : gmap (list N) attr_value;
  interesting_string_types : list string_class;
  contents : list (PageString + Tag) }.

Abbreviation PageElement := (PageString + Tag)%type (only parsing).

(** [tag.descendants]: every node below [t], in document order. *)
Fixpoint descendants (t : Tag) : list PageElement :=
  (fix walk (l : list PageElement) : list PageElement :=
     match l with
     | [] => []
     | inl s :: rest => inl s :: walk rest
     | inr c :: rest => inr c :: descendants c ++ walk rest
     end) (contents t).

(** [tag._all_strings(strip)], with [types] left at its default, the tag's
    own [interesting_string_types]: the strings of an interesting class
    among the descendants; with [strip] each is stripped and dropped when
    that leaves nothing. *)
Definition _all_strings (strip_ : bool) (t : Tag) : list str :=
  d ← descendants t;
  match d with
  | inr _ => []
  | inl s =>
      if bool_decide (string_type s ∈ interesting_string_types t) then
        if strip_ then
          let v := strip (string_value s) in
          if (length v =? 0)%nat then [] else [v]
        else [string_value s]
      else []
  end.

(** [tag.stripped_strings] *)
Definition stripped_strings (t : Tag) : list str := _all_strings true t.

(** [tag.get_text(strip=True)]: the pieces joined with the empty separator. *)
Definition get_text (t : Tag) : str := concat (_all_strings true t).

(** [tag.get(key)]: [self.attrs.get(key, None)]. *)
Definition get (t : Tag) (key : option str) : option attr_value :=
  match key with
  | None => None
  | Some k => attrs t !! k
  end.

(** ** Results *)

(** What ends up in the [text] field: a string, or the list bs4 hands out
    for a multi-valued attribute. *)
Inductive value :=
| VStr (s : str)
| VList (l : list str).

Record ScrapeResult := mkScrapeResult {
  index : Z;
  text : value;
  attr : option str;
  snippet : str }.

(** [x or ""] for what [el.get(attr)] returns: [None], the empty string and
    the empty list are false. *)
Definition or_empty (x : option attr_value) : value :=
  match x with
  | None => VStr []
  | Some (AttrStr s) => if truthy s then VStr s else VStr []
  | Some (AttrList l) => match l with [] => VStr [] | _ => VList l end
  end.

(** ** Errors and the instrumented result monad

    Every error the pipeline can raise is an instance of Python's
    [Exception]; its [str] is its message. *)

Inductive exception :=
| RequestException (message : str)
    (* what [requests.get] raises: ConnectionError, Timeout, InvalidURL, ... *)
| HTTPError (message : str)
    (* raised by [Response.raise_for_status] *)
| SelectorSyntaxError (message : str)
    (* raised by [select] on a selector outside the CSS grammar *)
| ParserRejectedMarkup (message : str)
| Exception (message : str).

(** [str(e)] *)
Definition str_of_exception (e : exception) : str :=
  match e with
  | RequestException m | HTTPError m | SelectorSyntaxError m
  | ParserRejectedMarkup m | Exception m => m
  end.

Inductive result (A : Type) :=
| Return (a : A)
| Raise (e : exception).
Arguments Return {A} a.
Arguments Raise {A} e.

(** Entries of the call log: which [Scraper] method was entered, and each
    call of the CSS engine. *)
Inductive call :=
| Call_fetch (url : str)
| Call_parse (html : str) (selector : option str) (attr_ : option str)
    (scrape_all : bool)
| Call_select (selector : str).

(** A computation yields the calls it made and either a value or the
    exception that ended it. *)
Definition M (A : Type) : Type := list call * result A.

Definition tell (c : call) : M unit := ([c], Return tt).
Definition lift {A} (r : result A) : M A := ([], r).

#[global] Instance M_ret : MRet M := fun A a => ([], Return a).

#[global] Instance M_bind : MBind M := fun A B (f : A -> M B) (m : M A) =>
  match m with
  | (l, Raise e) => (l, Raise e)
  | (l, Return a) => let '(l', r) := f a in (l ++ l', r)
  end.

Definition calls {A} (m : M A) : list call := fst m.
Definition outcome {A} (m : M A) : result A := snd m.

(** ** The HTTP client (requests) *)

Module requests.

Record Response := mkResponse {
  status_code : Z;
  reason : str;
  url : str;
  text : str }.

(** [Response.raise_for_status]: an [HTTPError] for a 4xx or a 5xx status
    code, nothing otherwise. *)
Definition raise_for_status (r : Response) : result unit :=
  if (400 <=? status_code r) && (status_code r <? 500) then
    Raise (HTTPError (str_of_int (status_code r) ++ py " Client Error: "
                        ++ reason r ++ py " for url: " ++ url r))
  else if (500 <=? status_code r) && (status_code r <? 600) then
    Raise (HTTPError (str_of_int (status_code r) ++ py " Server Error: "
                        ++ reason r ++ py " for url: " ++ url r))
  else Return tt.

End requests.

(** ** class Scraper

    The three collaborators the class calls are kept abstract: the
    transport ([requests.get] with the fixed headers and timeout), the HTML
    parser ([BeautifulSoup(html, "html.parser")]) and the CSS engine
    ([soup.select]). *)

Section Scraper.

Variable requests_get : str -> result requests.Response.
Variable BeautifulSoup : str -> result Tag.
Variable select : Tag -> str -> result (list Tag).

(** [Scraper.fetch] *)
Definition fetch (url : str) : M str :=
  tell (Call_fetch url);;
  response ← lift (requests_get url);
  lift (requests.raise_for_status response);;
  mret (requests.text response).

(** [selector or "body *"] *)
Definition selector_or_default (selector : option str) : str :=
  match selector with
  | Some s => if truthy s then s else py "body *"
  | None => py "body *"
  end.

(** The [scrape_all] branch of [parse]. *)
Definition parse_all (soup : Tag) : list ScrapeResult :=
  let strings :=
    strip <$> filter (λ text_, truthy (strip text_)) (stripped_strings soup) in
  (λ '(idx, text_), mkScrapeResult idx (VStr text_) (Some (py "text"))
                      (take 100 text_)) <$> enumerate 1 strings.

(** One turn of the loop over the selected elements. *)
Definition parse_element (attr_ : option str) (idx : Z) (el : Tag)
  : ScrapeResult :=
  let value_ :=
    if bool_decide (attr_ = Some (py "text")) then VStr (get_text el)
    else or_empty (get el attr_) in
  let snippet_ := take 100 (get_text el) in
  mkScrapeResult idx value_ attr_ snippet_.

(** The body of [Scraper.parse] once the soup is built. *)
Definition parse_document (soup : Tag) (selector attr_ : option str)
    (scrape_all : bool) : M (list ScrapeResult) :=
  if scrape_all then mret (parse_all soup)
  else
    tell (Call_select (selector_or_default selector));;
    elements ← lift (select soup (selector_or_default selector));
    mret ((λ '(idx, el), parse_element attr_ idx el) <$> enumerate 1 elements).

(** [Scraper.parse] *)
Definition parse (html : str) (selector attr_ : option str)
    (scrape_all : bool) : M (list ScrapeResult) :=
  tell (Call_parse html selector attr_ scrape_all);;
  soup ← lift (BeautifulSoup html);
  parse_document soup selector attr_ scrape_all.

(** [Scraper.scrape] *)
Definition scrape (url : str) (selector attr_ : option str)
    (scrape_all : bool) : M (list ScrapeResult) :=
  html ← fetch url;
  parse html selector attr_ scrape_all.

End Scraper.

(** ** Test doubles

    A CSS engine that knows the two forms the scenarios use, [body *] and a
    bare tag name, and rejects every other selector; documents written as
    trees. *)

Module Mock.

Definition tags (l : list PageElement) : list Tag :=
  omap (λ d, match d with inr t => Some t | inl _ => None end) l.

(** The tags that have an ancestor named [body], in document order. *)
Fixpoint under_body (inside : bool) (t : Tag) : list Tag :=
  (fix walk (l : list PageElement) : list Tag :=
     match l with
     | [] => []
     | inl _ :: rest => walk rest
     | inr c :: rest =>
         let inside' := inside || bool_decide (name t = py "body") in
         (if inside' then [c] else []) ++ under_body inside' c ++ walk rest
     end) (contents t).

Definition isalnum (c : char) : bool :=
  ((48 <=? c) && (c <=? 57) || (65 <=? c) && (c <=? 90)
   || (97 <=? c) && (c <=? 122))%N.

Definition select (soup : Tag) (selector : str) : result (list Tag) :=
  if bool_decide (selector = py "body *") then Return (under_body false soup)
  else if truthy selector && forallb isalnum selector then
    Return (filter (λ t, name t = selector) (tags (descendants soup)))
  else Raise (SelectorSyntaxError (py "Invalid character")).

Definition txt (s : string) : PageElement :=
  inl (mkString NavigableString (py s)).

Definition elem (n : string) (a : list (string * attr_value))
    (c : list PageElement) : PageElement :=
  inr (mkTag (py n) (list_to_map (prod_map py id <$> a))
         [NavigableString; CData] c).

Definition document (c : list PageElement) : Tag :=
  mkTag (py "[document]") ∅ [NavigableString; CData] c.

(** A parser double: it knows one page. *)
Definition page (html : string) (doc : Tag) (markup : str) : result Tag :=
  if bool_decide (markup = py html) then Return doc
  else Return (document [inl (mkString NavigableString markup)]).

(** A transport double: one URL answered with a status and a body, any
    other URL unreachable. *)
Definition server (u : string) (status : Z) (body : string) (url_ : str)
  : result requests.Response :=
  if bool_decide (url_ = py u) then
    Return (requests.mkResponse status (py "") (py u) (py body))
  else Raise (RequestException (py "Connection refused")).

End Mock.

(** ** class ScraperApp: worker thread, queue and poll

    [Queue] objects live in a store and are named by their address, so that
    which queue a thread or a poll touches is part of the state.  Each
    launch is numbered; the number travels with the thread, with the
    scheduled [check_queue] callback and with the message the thread puts,
    and two logs record every [put] and every successful [get_nowait].
    The numbers and the logs are instrumentation: no branch reads them. *)

Inductive message :=
| success (data : list ScrapeResult)
| error (data : str).

Inductive dialog :=
| showwarning (title body : str)
| showerror (title body : str).

Record Thread := mkThread {
  thread_id : nat;
  arg_url : str;
  arg_selector : option str;
  arg_attr : str;
  arg_scrape_all : bool }.

Record ScraperApp := mkApp {
  queues : gmap nat (list (nat * message));
  result_queue : nat;
  threads : list Thread;
  after_callbacks : list nat;
  tree : list (Z * value * str);
  status_var : str;
  dialogs : list dialog;
  launched : list Thread;
  put_log : list (nat * message);
  get_log : list (nat * (nat * message)) }.

(** [Queue()] *)
Definition Queue_new (h : gmap nat (list (nat * message)))
  : nat * gmap nat (list (nat * message)) :=
  let q := fresh (dom h) in (q, <[q := []]> h).

(** The items waiting in queue [q]. *)
Definition items (h : gmap nat (list (nat * message))) (q : nat)
  : list (nat * message) := default [] (h !! q).

(** [q.put(m)] on an unbounded queue. *)
Definition put (q : nat) (m : nat * message)
    (h : gmap nat (list (nat * message))) : gmap nat (list (nat * message)) :=
  <[q := items h q ++ [m]]> h.

(** [q.get_nowait()]; [None] stands for [Empty]. *)
Definition get_nowait (q : nat) (h : gmap nat (list (nat * message)))
  : option (nat * message * gmap nat (list (nat * message))) :=
  match items h q with
  | [] => None
  | m :: rest => Some (m, <[q := rest]> h)
  end.

(** [ScraperApp.__init__] *)
Definition init : ScraperApp :=
  let '(q, h) := Queue_new ∅ in
  mkApp h q [] [] [] (py "Ready") [] [] [] [].

(** What the Tk loop and the scheduler can do next: the Scrape button is
    pressed with the widgets holding the given values, a started thread
    runs to its end, or a pending [check_queue] callback comes due. *)
Inductive event :=
| Scrape_button (url_entry selector_entry attr_combo : str)
    (scrape_all_var : bool)
| Thread_run (i : nat)
| Timer_fire (i : nat).

Section App.

Variable requests_get : str -> result requests.Response.
Variable BeautifulSoup : str -> result Tag.
Variable select : Tag -> str -> result (list Tag).

(** [ScraperApp.start_scrape] *)
Definition start_scrape (url_entry selector_entry attr_combo : str)
    (scrape_all_var : bool) (st : ScraperApp) : ScraperApp :=
  let url_ := strip url_entry in
  let selector := strip selector_entry in
  let attr_ := strip attr_combo in
  let scrape_all := scrape_all_var in
  if negb (truthy url_) then
    mkApp (queues st) (result_queue st) (threads st) (after_callbacks st)
      (tree st) (status_var st)
      (dialogs st ++ [showwarning (py "Missing Fields")
                        (py "Please provide a URL.")])
      (launched st) (put_log st) (get_log st)
  else if negb scrape_all && negb (truthy selector) then
    mkApp (queues st) (result_queue st) (threads st) (after_callbacks st)
      (tree st) (status_var st)
      (dialogs st ++ [showwarning (py "Missing Fields")
         (py "Please provide a CSS selector or enable full-page mode.")])
      (launched st) (put_log st) (get_log st)
  else
    let i := length (launched st) in
    let t := mkThread i url_ (if truthy selector then Some selector else None)
               attr_ scrape_all in
    mkApp (queues st) (result_queue st) (threads st ++ [t])
      (after_callbacks st ++ [i])
      (tree st) (py "Scraping...") (dialogs st)
      (launched st ++ [t]) (put_log st) (get_log st).

(** The message [_run_scrape] puts for thread [t]. *)
Definition outcome_message (t : Thread) : message :=
  match outcome (scrape requests_get BeautifulSoup select
                   (arg_url t) (arg_selector t) (Some (arg_attr t))
                   (arg_scrape_all t)) with
  | Return results => success results
  | Raise e => error (str_of_exception e)
  end.

(** [ScraperApp._run_scrape], the body of thread [t]. *)
Definition _run_scrape (t : Thread) (st : ScraperApp) : ScraperApp :=
  let m := (thread_id t, outcome_message t) in
  mkApp (put (result_queue st) m (queues st)) (result_queue st)
    (threads st) (after_callbacks st) (tree st) (status_var st) (dialogs st)
    (launched st) (put_log st ++ [m]) (get_log st).

(** [ScraperApp.populate_results]: the rows of the tree view. *)
Definition populate_results (results : list ScrapeResult)
  : list (Z * value * str) :=
  (λ res, (index res, text res, snippet res)) <$> results.

(** [ScraperApp.check_queue], run as the callback numbered [i]. *)
Definition check_queue (i : nat) (st : ScraperApp) : ScraperApp :=
  match get_nowait (result_queue st) (queues st) with
  | Some ((j, success data), h) =>
      mkApp h (result_queue st) (threads st) (after_callbacks st)
        (populate_results data)
        (py "Scraped " ++ str_of_int (Z.of_nat (length data)) ++ py " items.")
        (dialogs st) (launched st) (put_log st)
        (get_log st ++ [(i, (j, success data))])
  | Some ((j, error data), h) =>
      mkApp h (result_queue st) (threads st) (after_callbacks st)
        (tree st) (py "Error occurred.")
        (dialogs st ++ [showerror (py "Error") data])
        (launched st) (put_log st)
        (get_log st ++ [(i, (j, error data))])
  | None =>
      mkApp (queues st) (result_queue st) (threads st)
        (after_callbacks st ++ [i])
        (tree st) (status_var st) (dialogs st)
        (launched st) (put_log st) (get_log st)
  end.

(** Take the first element equal to [i] out of a list. *)
Fixpoint remove_first (i : nat) (l : list nat) : list nat :=
  match l with
  | [] => []
  | j :: l' => if bool_decide (j = i) then l' else j :: remove_first i l'
  end.

(** One event.  An event naming a thread that is not running, or a
    callback that is not pending, changes nothing. *)
Definition step (st : ScraperApp) (ev : event) : ScraperApp :=
  match ev with
  | Scrape_button u s a all => start_scrape u s a all st
  | Thread_run i =>
      match list_find (λ t, thread_id t = i) (threads st) with
      | Some (k, t) =>
          _run_scrape t
            (mkApp (queues st) (result_queue st) (delete k (threads st))
               (after_callbacks st) (tree st) (status_var st) (dialogs st)
               (launched st) (put_log st) (get_log st))
      | None => st
      end
  | Timer_fire i =>
      if bool_decide (i ∈ after_callbacks st) then
        check_queue i
          (mkApp (queues st) (result_queue st) (threads st)
             (remove_first i (after_callbacks st))
             (tree st) (status_var st) (dialogs st)
             (launched st) (put_log st) (get_log st))
      else st
  end.

Definition run (evs : list event) (st : ScraperApp) : ScraperApp :=
  foldl step st evs.

(** What holds of the state after any sequence of events. *)
Record invariant (st : ScraperApp) : Prop := {
  inv_queue : result_queue st = result_queue init;
  inv_store : dom (queues st) = {[result_queue init]};
  inv_ids : thread_id <$> launched st = seq 0 (length (launched st));
  inv_workers :
    (thread_id <$> threads st) ++ (fst <$> put_log st)
    ≡ₚ seq 0 (length (launched st));
  inv_polls :
    after_callbacks st ++ (fst <$> get_log st)
    ≡ₚ seq 0 (length (launched st));
  inv_fifo :
    (snd <$> get_log st) ++ items (queues st) (result_queue st) = put_log st;
  inv_threads :
    ∀ t, t ∈ threads st → launched st !! thread_id t = Some t;
  inv_messages :
    ∀ i m, (i, m) ∈ put_log st →
           ∃ t, launched st !! i = Some t ∧ m = outcome_message t }.

End App.

(** How often invocation [i] occurs in a list of invocation numbers. *)
Definition occurrences (i : nat) (l : list nat) : nat :=
  length (filter (λ j, j = i) l).


(** ** The statements of the specification, as definitions *)

(** The text nodes of a document, in document order: the strings of a
    class the document counts as text. *)
Definition text_nodes (soup : Tag) : list str :=
  omap (λ d, match d with
             | inl s =>
                 if bool_decide (string_type s ∈ interesting_string_types soup)
                 then Some (string_value s) else None
             | inr _ => None
             end) (descendants soup).

(** Trim each text node and discard those that become empty. *)
Definition surviving_strings (soup : Tag) : list str :=
  filter (λ s, s ≠ []) (strip <$> text_nodes soup).

(** One result per surviving string, numbered from 1: the value is the
    string, the attribute is the sentinel and the snippet is the value cut
    to 100 characters. *)
Definition select_all_spec (soup : Tag) : list ScrapeResult :=
  imap (λ i s, mkScrapeResult (Z.of_nat (S i)) (VStr s) (Some (py "text"))
                 (take 100 s)) (surviving_strings soup).

(** The indices [1..N] of a sequence of [N] results. *)
Definition one_to (n : nat) : list Z := Z.of_nat <$> seq 1 n.

(** "The fetch fails if and only if the transport cannot complete or the
    status code is not 2xx." *)
Definition fails_iff_non_2xx (requests_get : str -> result requests.Response)
    (url_ : str) : Prop :=
  (∃ e, outcome (fetch requests_get url_) = Raise e)
  ↔ ((∃ e, requests_get url_ = Raise e)
     ∨ (∃ r, requests_get url_ = Return r
             ∧ ¬ (200 ≤ requests.status_code r < 300))).

(** "A response that is not 2xx makes the run fail, and the extractor is
    not invoked." *)
Definition non_2xx_skips_extractor
    (requests_get : str -> result requests.Response)
    (BeautifulSoup : str -> result Tag)
    (select : Tag -> str -> result (list Tag))
    (url_ : str) (selector attr_ : option str) (scrape_all : bool) : Prop :=
  ∀ r, requests_get url_ = Return r →
       ¬ (200 ≤ requests.status_code r < 300) →
       ∃ e, scrape requests_get BeautifulSoup select url_ selector attr_ scrape_all
            = ([Call_fetch url_], Raise e).

(** "Every value is a string." *)
Definition values_are_strings (rs : list ScrapeResult) : Prop :=
  ∀ r, r ∈ rs → ∃ s, text r = VStr s.

(** "In whole-page mode the value and the snippet of a result are equal." *)
Definition value_is_snippet (rs : list ScrapeResult) : Prop :=
  ∀ r, r ∈ rs → text r = VStr (snippet r).

(** A document holding one text node of 101 characters. *)
Definition long_text_document : Tag :=
  Mock.document [inl (mkString NavigableString (replicate 101 97%N))].

(** A paragraph with two classes. *)
Definition two_class_document : Tag :=
  Mock.document
    [Mock.elem "p" [("class"%string, AttrList [py "a"; py "b"])] [Mock.txt "x"]].

(** The text content of an element: its text nodes, joined. *)
Definition text_content (el : Tag) : str := concat (text_nodes el).

(** "The element's trimmed text content." *)
Definition trimmed_text_content (el : Tag) : str := strip (text_content el).

(** The text nodes of an element, each trimmed, the empty ones dropped,
    joined without a separator. *)
Definition joined_trimmed_nodes (el : Tag) : str :=
  concat (surviving_strings el).

(** "A matched element that lacks the attribute gives the empty string as
    value and its trimmed text content, cut to 100 characters, as
    snippet." *)
Definition missing_attribute_snippet_is_trimmed_text
    (select : Tag -> str -> result (list Tag)) (soup : Tag)
    (selector : option str) (a : str) : Prop :=
  ∀ els rs i el r,
    select soup (selector_or_default selector) = Return els →
    outcome (parse_document select soup selector (Some a) false) = Return rs →
    els !! i = Some el → attrs el !! a = None → rs !! i = Some r →
    text r = VStr [] ∧ snippet r = take 100 (trimmed_text_content el).

(** A link without [href] whose text is spread over two nodes:
    [<a>Hello <b>World</b></a>]. *)
Definition nested_link : Tag :=
  mkTag (py "a") ∅ [NavigableString; CData]
    [Mock.txt "Hello "; Mock.elem "b" [] [Mock.txt "World"]].

Definition nested_link_document : Tag := Mock.document [inr nested_link].

(** A second link, [<a href="u"> second </a>], and a page with both. *)
Definition second_link : Tag :=
  mkTag (py "a") {[py "href" := AttrStr (py "u")]} [NavigableString; CData]
    [Mock.txt " second "].

Definition two_links_document : Tag :=
  Mock.document [inr nested_link; inr second_link].



(** Two paragraphs, [<p>Hello</p><p>World</p>]. *)
Definition hello_world_document : Tag :=
  Mock.document [Mock.elem "p" [] [Mock.txt "Hello"];
                 Mock.elem "p" [] [Mock.txt "World"]].

Definition hello_world_parser : str -> result Tag :=
  Mock.page "<p>Hello</p><p>World</p>" hello_world_document.

(** ** The table, the status line and the CSV export *)

(** The data of the last [success] message taken from the queue. *)
Definition last_success (log : list (nat * (nat * message)))
  : option (list ScrapeResult) :=
  last (omap (λ e, match e.2.2 with
                   | success data => Some data
                   | error _ => None
                   end) log).

(** The rows that message puts in the tree view. *)
Definition displayed (log : list (nat * (nat * message)))
  : list (Z * value * str) :=
  match last_success log with
  | Some data => populate_results data
  | None => []
  end.

(** [f"Scraped {n} items."] *)
Definition scraped_status (n : nat) : str :=
  py "Scraped " ++ str_of_int (Z.of_nat n) ++ py " items.".

(** No thread running, no callback pending, nothing waiting in the queue. *)
Definition idle (st : ScraperApp) : Prop :=
  threads st = [] ∧ after_callbacks st = []
  ∧ items (queues st) (result_queue st) = [].

(** What [export_csv] does, in order: the dialogs it shows, the file it
    opens for writing and each [writer.writerow] call, whose argument is
    the header list or [self.tree.item(item)["values"]] for the item that
    was inserted with the given values. *)
Inductive export_effect :=
| showinfo (title body : str)
| asksaveasfilename
| open_w (file_path : str)
| writerow_header (cells : list str)
| writerow_item (values : Z * value * str).

(** [ScraperApp.export_csv]; [file_path] is what the save dialog returns
    (empty when cancelled) and [open_] tells whether the file can be
    opened for writing, or which error [open] raises.  Once the file is
    open the writes are taken to succeed. *)
Definition export_csv (file_path : str) (open_ : str -> result unit)
    (st : ScraperApp) : list export_effect * result unit :=
  match tree st with
  | [] =>
      ([showinfo (py "No Data") (py "No scraped data to export.")], Return tt)
  | _ :: _ =>
      if negb (truthy file_path) then ([asksaveasfilename], Return tt)
      else
        match open_ file_path with
        | Raise e => ([asksaveasfilename; open_w file_path], Raise e)
        | Return _ =>
            ([asksaveasfilename; open_w file_path;
              writerow_header [py "Index"; py "Value"; py "Snippet"]]
             ++ (writerow_item <$> tree st)
             ++ [showinfo (py "Exported") (py "Data exported to " ++ file_path)],
             Return tt)
        end
  end.

(** A page with one paragraph, served at one address, and the press that
    asks for its paragraphs. *)
Definition sample_document : Tag :=
  Mock.document [Mock.elem "p" [] [Mock.txt "x"]].

Definition sample_server : str -> result requests.Response :=
  Mock.server "http://h/" 200 "<p>x</p>".

Definition sample_parser : str -> result Tag :=
  Mock.page "<p>x</p>" sample_document.

Definition sample_press : event :=
  Scrape_button (py "http://h/") (py "p") (py "text") false.

(** The scenarios of the specification, run on the embedding. *)

Example scenario_1 :
  outcome (parse_document Mock.select
             (Mock.document [Mock.elem "p" [] [Mock.txt "Hello"];
                             Mock.elem "p" [] [Mock.txt "World"]])
             (Some (py "p")) (Some (py "text")) false)
  = Return [mkScrapeResult 1 (VStr (py "Hello")) (Some (py "text")) (py "Hello");
            mkScrapeResult 2 (VStr (py "World")) (Some (py "text")) (py "World")].
Proof. vm_compute. reflexivity. Qed.

Example scenario_2 :
  outcome (parse_document Mock.select
             (Mock.document
                [Mock.elem "div" [] [Mock.txt " Hello ";
                                     Mock.elem "span" [] [Mock.txt "World"]]])
             None (Some (py "text")) true)
  = Return [mkScrapeResult 1 (VStr (py "Hello")) (Some (py "text")) (py "Hello");
            mkScrapeResult 2 (VStr (py "World")) (Some (py "text")) (py "World")].
Proof. vm_compute. reflexivity. Qed.

Example scenario_3 :
  outcome (parse_document Mock.select
             (Mock.document
                [Mock.elem "a" [("href"%string, AttrStr (py "x"))] [Mock.txt "l"]])
             (Some (py "a")) (Some (py "href")) false)
  = Return [mkScrapeResult 1 (VStr (py "x")) (Some (py "href")) (py "l")].
Proof. vm_compute. reflexivity. Qed.

Example scenario_4 :
  outcome (parse_document Mock.select
             (Mock.document [Mock.elem "a" [] [Mock.txt "l"]])
             (Some (py "a")) (Some (py "href")) false)
  = Return [mkScrapeResult 1 (VStr (py "")) (Some (py "href")) (py "l")].
Proof. vm_compute. reflexivity. Qed.

Example scenario_5 :
  scrape (Mock.server "http://h/" 404 "<p>gone</p>")
         (Mock.page "" (Mock.document [])) Mock.select
         (py "http://h/") (Some (py "p")) (Some (py "text")) false
  = ([Call_fetch (py "http://h/")],
     Raise (HTTPError (py "404 Client Error:  for url: http://h/"))).
Proof. vm_compute. reflexivity. Qed.

(** ** Strings and lists *)

Lemma lstrip_fixed (s : str) :
  match s with [] => True | c :: _ => isspace c = false end → lstrip s = s.
Proof. destruct s as [|c s]; simpl; [done|]. by intros ->. Qed.

Lemma lstrip_head (s : str) :
  match lstrip s with [] => True | c :: _ => isspace c = false end.
Proof.
  induction s as [|c s IH]; simpl; [done|].
  destruct (isspace c) eqn:Hc; [exact IH | exact Hc].
Qed.

Lemma lstrip_idemp (s : str) : lstrip (lstrip s) = lstrip s.
Proof. apply lstrip_fixed, lstrip_head. Qed.

Lemma lstrip_snoc (s : str) (c : char) :
  isspace c = false → lstrip (s ++ [c]) = lstrip s ++ [c].
Proof.
  intros Hc. induction s as [|x s IH]; simpl.
  - by rewrite Hc.
  - by destruct (isspace x).
Qed.

Lemma rstrip_idemp (s : str) : rstrip (rstrip s) = rstrip s.
Proof. unfold rstrip. by rewrite reverse_involutive, lstrip_idemp. Qed.

Lemma rstrip_head (s : str) :
  match s with [] => True | c :: _ => isspace c = false end →
  match rstrip s with [] => True | c :: _ => isspace c = false end.
Proof.
  destruct s as [|c s]; [done|]. intros Hc. unfold rstrip.
  rewrite reverse_cons, lstrip_snoc, reverse_app by done. exact Hc.
Qed.

Lemma strip_idemp (s : str) : strip (strip s) = strip s.
Proof.
  unfold strip at 1.
  rewrite (lstrip_fixed (strip s)).
  - unfold strip. apply rstrip_idemp.
  - apply rstrip_head, lstrip_head.
Qed.

Lemma length_eqb_0 (s : str) : (length s =? 0)%nat = negb (truthy s).
Proof. by destruct s. Qed.

Lemma enumerate_length {A} (k : Z) (l : list A) :
  length (enumerate k l) = length l.
Proof. revert k. induction l as [|x l IH]; intros k; simpl; [done|]. by rewrite IH. Qed.

Lemma enumerate_lookup {A} (k : Z) (l : list A) (i : nat) :
  enumerate k l !! i = (λ x, (k + Z.of_nat i, x)) <$> l !! i.
Proof.
  revert k i. induction l as [|x l IH]; intros k [|i]; simpl; try done.
  - by rewrite Z.add_0_r.
  - rewrite IH. destruct (l !! i); simpl; [|done]. do 2 f_equal. lia.
Qed.

Lemma enumerate_fst {A} (k : Z) (l : list A) :
  fst <$> enumerate k l = (λ i, k + Z.of_nat i) <$> seq 0 (length l).
Proof.
  revert k. induction l as [|x l IH]; intros k; simpl; [done|].
  rewrite Z.add_0_r. f_equal. rewrite IH, <- fmap_S_seq, <- list_fmap_compose.
  apply list_fmap_ext. intros _ i _. simpl. lia.
Qed.

Lemma one_to_alt (n : nat) : one_to n = (λ i, 1 + Z.of_nat i) <$> seq 0 n.
Proof.
  unfold one_to. rewrite <- fmap_S_seq, <- list_fmap_compose.
  apply list_fmap_ext. intros _ i _. simpl. lia.
Qed.

Lemma enumerate_imap {A B} (f : Z → A → B) (l : list A) (k : nat) :
  (λ '(idx, x), f idx x) <$> enumerate (Z.of_nat (S k)) l
  = imap (λ i x, f (Z.of_nat (S (k + i))) x) l.
Proof.
  revert k. induction l as [|x l IH]; intros k; simpl; [done|].
  rewrite Nat.add_0_r. f_equal.
  replace (Z.of_nat (S k) + 1) with (Z.of_nat (S (S k))) by lia.
  rewrite IH. apply imap_ext. intros i y _. simpl. do 2 f_equal. lia.
Qed.

(** ** The extractor *)

Lemma surviving_strings_stripped (soup : Tag) :
  Forall (λ v, v ≠ [] ∧ strip v = v) (surviving_strings soup).
Proof.
  unfold surviving_strings. apply Forall_forall. intros v Hv.
  apply list_elem_of_filter in Hv as [Hne Hv].
  apply list_elem_of_fmap in Hv as (x & -> & _).
  split; [done | apply strip_idemp].
Qed.

Lemma stripped_strings_surviving (soup : Tag) :
  stripped_strings soup = surviving_strings soup.
Proof.
  unfold stripped_strings, _all_strings, surviving_strings, text_nodes.
  induction (descendants soup) as [|d l IH]; [done|].
  rewrite bind_cons, IH. destruct d as [s|c]; simpl; [|done].
  destruct (bool_decide _); simpl; [|done].
  rewrite length_eqb_0, filter_cons.
  by destruct (strip (string_value s)).
Qed.

Lemma parse_all_strings (soup : Tag) :
  strip <$> filter (λ text_, truthy (strip text_)) (stripped_strings soup)
  = surviving_strings soup.
Proof.
  rewrite stripped_strings_surviving.
  pose proof (surviving_strings_stripped soup) as H.
  induction H as [|v l [Hne Hv] _ IH]; [done|].
  rewrite filter_cons, decide_True.
  - rewrite fmap_cons, Hv. by f_equal.
  - rewrite Hv. destruct v; [done | exact I].
Qed.

Lemma parse_all_spec (soup : Tag) : parse_all soup = select_all_spec soup.
Proof.
  unfold parse_all, select_all_spec. rewrite parse_all_strings.
  apply (enumerate_imap
           (λ idx s, mkScrapeResult idx (VStr s) (Some (py "text")) (take 100 s))
           (surviving_strings soup) 0).
Qed.

Lemma parse_all_index (soup : Tag) :
  index <$> parse_all soup = one_to (length (parse_all soup)).
Proof.
  unfold parse_all. set (strings := strip <$> _).
  rewrite length_fmap, enumerate_length, one_to_alt, <- enumerate_fst.
  rewrite <- list_fmap_compose. apply list_fmap_ext. by intros _ [idx t] _.
Qed.

Lemma parse_all_snippet (soup : Tag) :
  Forall (λ r, (length (snippet r) ≤ 100)%nat) (parse_all soup).
Proof.
  unfold parse_all. apply Forall_fmap, Forall_forall. intros [idx t] _. simpl.
  rewrite length_take. lia.
Qed.

Lemma parse_elements_index (attr_ : option str) (els : list Tag) :
  let rs := (λ '(idx, el), parse_element attr_ idx el) <$> enumerate 1 els in
  index <$> rs = one_to (length rs).
Proof.
  simpl. rewrite length_fmap, enumerate_length, one_to_alt, <- enumerate_fst.
  rewrite <- list_fmap_compose. apply list_fmap_ext. by intros _ [idx t] _.
Qed.

Lemma parse_elements_snippet (attr_ : option str) (els : list Tag) :
  Forall (λ r, (length (snippet r) ≤ 100)%nat)
    ((λ '(idx, el), parse_element attr_ idx el) <$> enumerate 1 els).
Proof.
  apply Forall_fmap, Forall_forall. intros [idx t] _. simpl.
  rewrite length_take. lia.
Qed.

(** What [parse_document] comes to in each mode. *)
Lemma parse_document_all select (soup : Tag) (selector attr_ : option str) :
  parse_document select soup selector attr_ true = ([], Return (parse_all soup)).
Proof. reflexivity. Qed.

Lemma parse_document_selected select (soup : Tag) (selector attr_ : option str) :
  parse_document select soup selector attr_ false
  = ([Call_select (selector_or_default selector)],
     match select soup (selector_or_default selector) with
     | Return els =>
         Return ((λ '(idx, el), parse_element attr_ idx el) <$> enumerate 1 els)
     | Raise e => Raise e
     end).
Proof.
  unfold parse_document. cbn.
  by destruct (select soup (selector_or_default selector)).
Qed.

Lemma parse_unfold BeautifulSoup select (html : str) (selector attr_ : option str)
    (scrape_all : bool) :
  parse BeautifulSoup select html selector attr_ scrape_all
  = match BeautifulSoup html with
    | Return soup =>
        (Call_parse html selector attr_ scrape_all
           :: calls (parse_document select soup selector attr_ scrape_all),
         outcome (parse_document select soup selector attr_ scrape_all))
    | Raise e => ([Call_parse html selector attr_ scrape_all], Raise e)
    end.
Proof.
  unfold parse. cbn. destruct (BeautifulSoup html) as [soup|e]; [|done].
  by destruct (parse_document select soup selector attr_ scrape_all).
Qed.

Lemma parse_document_wellformed select (soup : Tag) (selector attr_ : option str)
    (scrape_all : bool) (rs : list ScrapeResult) :
  outcome (parse_document select soup selector attr_ scrape_all) = Return rs →
  Forall (λ r, (length (snippet r) ≤ 100)%nat) rs
  ∧ index <$> rs = one_to (length rs).
Proof.
  destruct scrape_all.
  - rewrite parse_document_all. intros [= <-].
    split; [apply parse_all_snippet | apply parse_all_index].
  - rewrite parse_document_selected. simpl.
    destruct (select soup _) as [els|e]; [|done]. intros [= <-].
    split; [apply parse_elements_snippet | apply parse_elements_index].
Qed.

Lemma get_text_joined (el : Tag) : get_text el = joined_trimmed_nodes el.
Proof.
  unfold get_text, joined_trimmed_nodes.
  by rewrite <- stripped_strings_surviving.
Qed.

Lemma select_all_spec_text (soup : Tag) :
  text <$> select_all_spec soup = VStr <$> surviving_strings soup.
Proof.
  unfold select_all_spec. rewrite fmap_imap. apply list_eq. intros i.
  rewrite list_lookup_imap, list_lookup_fmap. by destruct (_ !! i).
Qed.

(** C5: in either mode, every result of [parse] has a snippet of at most
    100 characters, and the indices of the results are 1, 2, ..., N in the
    order of the sequence, N being its length; the order is that of the
    document: in whole-page mode the values of the results are the
    surviving text nodes in document order, and in selector mode result
    [i], with index [i + 1], is the one made from the [i]-th matched
    element. *)
Theorem parse_snippets_and_indices BeautifulSoup select (html : str)
    (selector attr_ : option str) (scrape_all : bool) (rs : list ScrapeResult) :
  outcome (parse BeautifulSoup select html selector attr_ scrape_all) = Return rs →
  Forall (λ r, (length (snippet r) ≤ 100)%nat) rs
  ∧ index <$> rs = one_to (length rs)
  ∧ NoDup (index <$> rs)
  ∧ ∃ soup,
      BeautifulSoup html = Return soup
      ∧ if scrape_all
        then text <$> rs = VStr <$> surviving_strings soup
        else ∃ els,
               select soup (selector_or_default selector) = Return els
               ∧ length rs = length els
               ∧ ∀ i r, rs !! i = Some r →
                   ∃ el, els !! i = Some el
                         ∧ index r = Z.of_nat (S i)
                         ∧ snippet r = take 100 (joined_trimmed_nodes el).
Proof.
  rewrite parse_unfold. destruct (BeautifulSoup html) as [soup|e]; [|done].
  simpl. intros H. pose proof H as Hrs.
  apply parse_document_wellformed in H as [Hs Hi].
  split_and!; [done..| |].
  - rewrite Hi. unfold one_to. apply NoDup_fmap; [apply _ | apply NoDup_seq].
  - exists soup. split; [done|]. destruct scrape_all.
    + rewrite parse_document_all in Hrs. injection Hrs as <-.
      rewrite parse_all_spec. apply select_all_spec_text.
    + rewrite parse_document_selected in Hrs. simpl in Hrs.
      destruct (select soup _) as [els|e]; [|done]. injection Hrs as <-.
      exists els. split; [done|]. split.
      * by rewrite length_fmap, enumerate_length.
      * intros i r. rewrite list_lookup_fmap, enumerate_lookup.
        destruct (els !! i) as [el|]; [|done]. simpl. intros [= <-].
        exists el. simpl. split_and!; [done|lia|].
        by rewrite get_text_joined.
Qed.

(** C6: in whole-page mode the results are, in document order, one per
    text node that is not empty once trimmed; the value is that trimmed,
    non-empty string, the attribute is the sentinel [text], and the snippet
    is the value cut to its first 100 characters, hence equal to the value
    whenever the value has at most 100 characters. *)
Theorem select_all_results select (soup : Tag) (selector attr_ : option str) :
  parse_document select soup selector attr_ true
  = ([], Return (select_all_spec soup))
  ∧ length (select_all_spec soup) = length (surviving_strings soup)
  ∧ ∀ i r, select_all_spec soup !! i = Some r →
      ∃ s, surviving_strings soup !! i = Some s
           ∧ s ≠ [] ∧ strip s = s
           ∧ index r = Z.of_nat (S i)
           ∧ text r = VStr s
           ∧ attr r = Some (py "text")
           ∧ snippet r = take 100 s
           ∧ ((length s ≤ 100)%nat → text r = VStr (snippet r)).
Proof.
  split_and!.
  - by rewrite parse_document_all, parse_all_spec.
  - unfold select_all_spec. by rewrite length_imap.
  - intros i r. unfold select_all_spec. rewrite list_lookup_imap.
    destruct (surviving_strings soup !! i) as [s|] eqn:Hs; [|done].
    intros [= <-]. exists s. simpl.
    pose proof (surviving_strings_stripped soup) as H.
    apply (proj1 (Forall_lookup _ _) H) in Hs as Hi. destruct Hi as [Hne Hst].
    split_and!; try done. intros Hlen. by rewrite take_ge.
Qed.

(** C6, as stated, fails: a text node of 101 characters gives a result
    whose snippet is not its value. *)
Lemma long_text_value_differs_from_snippet :
  ¬ value_is_snippet (parse_all long_text_document).
Proof.
  intros H.
  specialize (H (mkScrapeResult 1 (VStr (replicate 101 97%N)) (Some (py "text"))
                   (replicate 100 97%N))).
  assert (Hin : mkScrapeResult 1 (VStr (replicate 101 97%N)) (Some (py "text"))
                  (replicate 100 97%N) ∈ parse_all long_text_document).
  { vm_compute. apply list_elem_of_here. }
  specialize (H Hin). vm_compute in H. discriminate H.
Qed.

Lemma joined_single_node (el : Tag) (s : str) :
  text_nodes el = [s] → joined_trimmed_nodes el = trimmed_text_content el.
Proof.
  intros Hs. unfold joined_trimmed_nodes, surviving_strings,
    trimmed_text_content, text_content. rewrite Hs. simpl.
  rewrite app_nil_r, filter_cons.
  destruct (strip s) eqn:Hst; simpl; [done|]. by rewrite app_nil_r.
Qed.

(** C7: in selector mode with an attribute other than [text], a matched
    element that lacks the attribute yields the empty string as value; its
    snippet is, cut to 100 characters, the text made of its text nodes
    each trimmed, the empty ones dropped, joined without a separator,
    which is its trimmed text content when it has a single text node. *)
Theorem missing_attribute_is_empty select (soup : Tag) (selector : option str)
    (a : str) (els : list Tag) (i : nat) (el : Tag) :
  select soup (selector_or_default selector) = Return els →
  els !! i = Some el →
  a ≠ py "text" →
  attrs el !! a = None →
  ∃ rs r,
    outcome (parse_document select soup selector (Some a) false) = Return rs
    ∧ rs !! i = Some r
    ∧ index r = Z.of_nat (S i)
    ∧ text r = VStr []
    ∧ attr r = Some a
    ∧ snippet r = take 100 (joined_trimmed_nodes el)
    ∧ (∀ s, text_nodes el = [s] →
         snippet r = take 100 (trimmed_text_content el)).
Proof.
  intros Hsel Hel Ha Hattr.
  rewrite parse_document_selected, Hsel. simpl.
  eexists _, _. split; [reflexivity|].
  rewrite list_lookup_fmap, enumerate_lookup, Hel. simpl.
  split; [reflexivity|]. simpl.
  split_and!; try done; [lia| | |].
  - rewrite bool_decide_eq_false_2 by congruence.
    unfold get. by rewrite Hattr.
  - by rewrite get_text_joined.
  - intros s Hs. by rewrite get_text_joined, (joined_single_node el s Hs).
Qed.

(** C7, as stated, fails: for [<a>Hello <b>World</b></a>] without [href]
    the snippet is [HelloWorld], while the trimmed text content of the
    element is [Hello World]. *)
Lemma snippet_joins_trimmed_nodes :
  ¬ missing_attribute_snippet_is_trimmed_text Mock.select nested_link_document
      (Some (py "a")) (py "href").
Proof.
  intros H.
  destruct (H [nested_link]
              [mkScrapeResult 1 (VStr []) (Some (py "href")) (py "HelloWorld")]
              0%nat nested_link
              (mkScrapeResult 1 (VStr []) (Some (py "href")) (py "HelloWorld")))
    as [_ Hsnip]; try (vm_compute; reflexivity).
  vm_compute in Hsnip. discriminate Hsnip.
Qed.

(** C8 at a multi-valued attribute: asked for [class], the value of the
    result is the list of the element's classes, not a string. *)
Lemma class_value_is_a_list :
  outcome (parse_document Mock.select two_class_document
             (Some (py "p")) (Some (py "class")) false)
  = Return [mkScrapeResult 1 (VList [py "a"; py "b"]) (Some (py "class")) (py "x")]
  ∧ ¬ values_are_strings
        [mkScrapeResult 1 (VList [py "a"; py "b"]) (Some (py "class")) (py "x")].
Proof.
  split; [by vm_compute|].
  intros H. destruct (H _ (list_elem_of_here _ _)) as [s Hs]. discriminate Hs.
Qed.




(** ** The fetcher and the pipeline *)

Lemma raise_for_status_error (r : requests.Response) :
  400 ≤ requests.status_code r < 600 →
  ∃ m, requests.raise_for_status r = Raise (HTTPError m).
Proof.
  intros H. unfold requests.raise_for_status.
  destruct (Z.leb_spec 400 (requests.status_code r)),
    (Z.ltb_spec (requests.status_code r) 500),
    (Z.leb_spec 500 (requests.status_code r)),
    (Z.ltb_spec (requests.status_code r) 600); simpl; try lia; by eexists.
Qed.

Lemma raise_for_status_ok (r : requests.Response) :
  ¬ (400 ≤ requests.status_code r < 600) →
  requests.raise_for_status r = Return tt.
Proof.
  intros H. unfold requests.raise_for_status.
  destruct (Z.leb_spec 400 (requests.status_code r)),
    (Z.ltb_spec (requests.status_code r) 500),
    (Z.leb_spec 500 (requests.status_code r)),
    (Z.ltb_spec (requests.status_code r) 600); simpl; try lia; done.
Qed.

Lemma M_bind_eq {A B} (m : M A) (f : A → M B) :
  m ≫= f
  = (calls m ++ match outcome m with Return a => calls (f a) | Raise _ => [] end,
     match outcome m with Return a => outcome (f a) | Raise e => Raise e end).
Proof.
  destruct m as [l [a|e]]; cbn.
  - by destruct (f a).
  - by rewrite app_nil_r.
Qed.

Lemma fetch_unfold requests_get (url_ : str) :
  fetch requests_get url_
  = ([Call_fetch url_],
     match requests_get url_ with
     | Raise e => Raise e
     | Return r =>
         match requests.raise_for_status r with
         | Raise e => Raise e
         | Return _ => Return (requests.text r)
         end
     end).
Proof.
  unfold fetch. cbn. destruct (requests_get url_) as [r|e]; [|done].
  by destruct (requests.raise_for_status r).
Qed.

Lemma scrape_unfold requests_get BeautifulSoup select (url_ : str)
    (selector attr_ : option str) (scrape_all : bool) :
  scrape requests_get BeautifulSoup select url_ selector attr_ scrape_all
  = match outcome (fetch requests_get url_) with
    | Raise e => ([Call_fetch url_], Raise e)
    | Return html =>
        (Call_fetch url_
           :: calls (parse BeautifulSoup select html selector attr_ scrape_all),
         outcome (parse BeautifulSoup select html selector attr_ scrape_all))
    end.
Proof.
  unfold scrape. rewrite M_bind_eq, fetch_unfold. cbn [calls outcome fst snd].
  by destruct (match requests_get url_ with Return _ => _ | Raise _ => _ end).
Qed.

Lemma fetch_http_error requests_get (url_ : str) (r : requests.Response) :
  requests_get url_ = Return r →
  400 ≤ requests.status_code r < 600 →
  ∃ m, fetch requests_get url_ = ([Call_fetch url_], Raise (HTTPError m)).
Proof.
  intros Hget Hr. rewrite fetch_unfold, Hget.
  destruct (raise_for_status_error r Hr) as [m ->]. by exists m.
Qed.

(** C4: [fetch] fails exactly when the transport raises or the status code
    is a 4xx or a 5xx; the error is then the transport's own, or an
    [HTTPError]; for any other status code it returns the body of the
    response as text. *)
Theorem fetch_fails_iff requests_get (url_ : str) :
  ((∃ e, outcome (fetch requests_get url_) = Raise e)
   ↔ ((∃ e, requests_get url_ = Raise e)
      ∨ (∃ r, requests_get url_ = Return r
              ∧ 400 ≤ requests.status_code r < 600)))
  ∧ (∀ e, requests_get url_ = Raise e →
       fetch requests_get url_ = ([Call_fetch url_], Raise e))
  ∧ (∀ r, requests_get url_ = Return r →
       400 ≤ requests.status_code r < 600 →
       ∃ m, fetch requests_get url_ = ([Call_fetch url_], Raise (HTTPError m)))
  ∧ (∀ r, requests_get url_ = Return r →
       ¬ (400 ≤ requests.status_code r < 600) →
       fetch requests_get url_ = ([Call_fetch url_], Return (requests.text r))).
Proof.
  rewrite fetch_unfold. simpl. split_and!.
  - split.
    + intros [e He]. destruct (requests_get url_) as [r|e'] eqn:Hget.
      * right. exists r. split; [done|].
        destruct (decide (400 ≤ requests.status_code r < 600)) as [|Hn]; [done|].
        by rewrite (raise_for_status_ok r Hn) in He.
      * left. by exists e'.
    + intros [[e ->]|(r & -> & Hr)]; [by exists e|].
      destruct (raise_for_status_error r Hr) as [m ->]. by eexists.
  - by intros e ->.
  - intros r Hget Hr.
    destruct (fetch_http_error _ _ _ Hget Hr) as [m Hm].
    rewrite fetch_unfold in Hm. by exists m.
  - intros r -> Hr. by rewrite (raise_for_status_ok r Hr).
Qed.

(** C4, as stated, fails: a 304 response is not 2xx, yet [fetch] returns
    its body. *)
Lemma not_modified_is_returned :
  ¬ fails_iff_non_2xx (Mock.server "http://h/" 304 "<p>x</p>") (py "http://h/").
Proof.
  intros [_ H]. destruct H as [e He].
  - right. eexists. split; [by vm_compute|]. simpl. lia.
  - vm_compute in He. discriminate He.
Qed.

(** C3: [scrape] runs [fetch], then [parse].  When [fetch] fails, which it
    does on every 4xx or 5xx response, [scrape] fails with that same error
    and [parse] is not entered; when [fetch] returns, the calls and the
    outcome of [scrape] are those of [parse] on the fetched text. *)
Theorem scrape_sequential requests_get BeautifulSoup select (url_ : str)
    (selector attr_ : option str) (scrape_all : bool) :
  (∀ e, outcome (fetch requests_get url_) = Raise e →
     scrape requests_get BeautifulSoup select url_ selector attr_ scrape_all
     = ([Call_fetch url_], Raise e))
  ∧ (∀ r, requests_get url_ = Return r →
       400 ≤ requests.status_code r < 600 →
       ∃ m, scrape requests_get BeautifulSoup select url_ selector attr_ scrape_all
            = ([Call_fetch url_], Raise (HTTPError m)))
  ∧ (∀ html, outcome (fetch requests_get url_) = Return html →
       scrape requests_get BeautifulSoup select url_ selector attr_ scrape_all
       = (Call_fetch url_
            :: calls (parse BeautifulSoup select html selector attr_ scrape_all),
          outcome (parse BeautifulSoup select html selector attr_ scrape_all))).
Proof.
  rewrite scrape_unfold. split_and!.
  - by intros e ->.
  - intros r Hr Hs.
    destruct (fetch_http_error requests_get url_ r Hr Hs) as [m ->]. by exists m.
  - by intros html ->.
Qed.

(** C3, as stated, fails: on a 304 response, which is not 2xx, the run
    enters [parse] and returns results. *)
Lemma not_modified_reaches_parse :
  ¬ non_2xx_skips_extractor
      (Mock.server "http://h/" 304 "<p>x</p>")
      (Mock.page "<p>x</p>" (Mock.document [Mock.elem "p" [] [Mock.txt "x"]]))
      Mock.select (py "http://h/") (Some (py "p")) (Some (py "text")) false.
Proof.
  intros H. destruct (H (requests.mkResponse 304 (py "") (py "http://h/")
                           (py "<p>x</p>"))) as [e He].
  - by vm_compute.
  - simpl. lia.
  - vm_compute in He. discriminate He.
Qed.

(** ** The runner: invariants of every run *)

Lemma occurrences_app (i : nat) (l1 l2 : list nat) :
  occurrences i (l1 ++ l2) = (occurrences i l1 + occurrences i l2)%nat.
Proof. unfold occurrences. by rewrite filter_app, length_app. Qed.

Lemma occurrences_perm (i : nat) (l1 l2 : list nat) :
  l1 ≡ₚ l2 → occurrences i l1 = occurrences i l2.
Proof. unfold occurrences. by intros ->. Qed.

Lemma occurrences_seq (i s n : nat) :
  occurrences i (seq s n)
  = if bool_decide (s ≤ i < s + n)%nat then 1%nat else 0%nat.
Proof.
  revert s. induction n as [|n IH]; intros s.
  - rewrite bool_decide_eq_false_2; [done | lia].
  - change (seq s (S n)) with (s :: seq (S s) n).
    unfold occurrences in *. rewrite filter_cons.
    destruct (decide (s = i)) as [->|Hne]; simpl; rewrite IH.
    + rewrite bool_decide_eq_false_2 by lia.
      rewrite bool_decide_eq_true_2 by lia. done.
    + repeat case_bool_decide; try done; lia.
Qed.

Lemma occurrences_split (i n : nat) (l1 l2 : list nat) :
  l1 ++ l2 ≡ₚ seq 0 n → (i < n)%nat →
  (occurrences i l1 + occurrences i l2 = 1)%nat.
Proof.
  intros Hp Hi. rewrite <- occurrences_app, (occurrences_perm _ _ _ Hp).
  rewrite occurrences_seq, bool_decide_eq_true_2; [done | lia].
Qed.

Lemma remove_first_perm (i : nat) (l : list nat) :
  i ∈ l → i :: remove_first i l ≡ₚ l.
Proof.
  induction l as [|j l IH]; intros Hin; [by apply elem_of_nil in Hin|].
  simpl. case_bool_decide as Hj; [by subst|].
  apply elem_of_cons in Hin as [Hij|Hin]; [congruence|].
  rewrite Permutation_swap. by rewrite (IH Hin).
Qed.

Lemma items_put (q : nat) (m : nat * message)
    (h : gmap nat (list (nat * message))) :
  items (put q m h) q = items h q ++ [m].
Proof. unfold items at 1, put. by rewrite lookup_insert_eq. Qed.

Lemma dom_put (q : nat) (m : nat * message)
    (h : gmap nat (list (nat * message))) :
  dom h = {[q]} → dom (put q m h) = {[q]}.
Proof. intros Hd. unfold put. rewrite dom_insert_L, Hd. apply (idemp_L (∪)). Qed.

Lemma get_nowait_some (q : nat) (h h' : gmap nat (list (nat * message)))
    (m : nat * message) :
  get_nowait q h = Some (m, h') →
  items h q = m :: items h' q ∧ (dom h = {[q]} → dom h' = {[q]}).
Proof.
  unfold get_nowait. destruct (items h q) as [|m' rest] eqn:Hq; [done|].
  intros [= -> <-]. split.
  - unfold items at 1. by rewrite lookup_insert_eq.
  - intros Hd. rewrite dom_insert_L, Hd. apply (idemp_L (∪)).
Qed.

Section Runs.

Variable requests_get : str -> result requests.Response.
Variable BeautifulSoup : str -> result Tag.
Variable select : Tag -> str -> result (list Tag).

#[local] Abbreviation inv := (invariant requests_get BeautifulSoup select).
#[local] Abbreviation step_ := (step requests_get BeautifulSoup select).
#[local] Abbreviation run_ := (run requests_get BeautifulSoup select).

Lemma invariant_init : inv init.
Proof.
  split; try done.
  - intros t H. by apply elem_of_nil in H.
  - intros i m H. by apply elem_of_nil in H.
Qed.

Lemma invariant_start_scrape u s a all (st : ScraperApp) :
  inv st → inv (start_scrape u s a all st).
Proof.
  intros [Hq Hs Hi Hw Hp Hf Ht Hm]. unfold start_scrape.
  destruct (negb (truthy (strip u))); [by split|].
  destruct (negb all && negb (truthy (strip s))); [by split|].
  split; simpl; try done.
  - rewrite fmap_app, Hi, length_app. simpl.
    by rewrite Nat.add_1_r, seq_S.
  - rewrite fmap_app, length_app. simpl. rewrite Nat.add_1_r, seq_S. simpl.
    rewrite <- Hw. by rewrite <- !Permutation_cons_append.
  - rewrite length_app. simpl. rewrite Nat.add_1_r, seq_S. simpl.
    rewrite <- Hp. by rewrite <- !Permutation_cons_append.
  - intros t [Hin| ->%list_elem_of_singleton]%elem_of_app.
    + apply lookup_app_l_Some. by apply Ht.
    + simpl. by rewrite lookup_app_r, Nat.sub_diag.
  - intros i m Hin. destruct (Hm i m Hin) as (t & Hl & ->).
    exists t. split; [by apply lookup_app_l_Some | done].
Qed.

Lemma invariant_thread_run (i : nat) (st : ScraperApp) :
  inv st → inv (step_ st (Thread_run i)).
Proof.
  intros [Hq Hs Hi Hw Hp Hf Ht Hm]. simpl.
  destruct (list_find _ (threads st)) as [[k t]|] eqn:Hfind; [|by split].
  apply list_find_Some in Hfind as (Hk & Hid & _).
  split; simpl; try done.
  - rewrite Hq in *. by apply dom_put.
  - rewrite (delete_Permutation (threads st) k t Hk) in Hw.
    rewrite <- Hw, fmap_app, app_assoc. simpl.
    by rewrite <- Permutation_cons_append.
  - by rewrite items_put, app_assoc, Hf.
  - intros t' Hin. apply Ht. by eapply list_elem_of_delete_inv.
  - intros j m [Hin| [= -> ->]%list_elem_of_singleton]%elem_of_app;
      [by apply Hm|].
    exists t. split; [|done]. apply Ht. by eapply list_elem_of_lookup_2.
Qed.

Lemma invariant_timer_fire (i : nat) (st : ScraperApp) :
  inv st → inv (step_ st (Timer_fire i)).
Proof.
  intros [Hq Hs Hi Hw Hp Hf Ht Hm]. simpl.
  case_bool_decide as Hin; [|by split].
  unfold check_queue. simpl.
  destruct (get_nowait _ _) as [[[j m] h]|] eqn:Hget.
  - apply get_nowait_some in Hget as [Hitems Hdom].
    assert (Hpolls :
      remove_first i (after_callbacks st) ++ (fst <$> get_log st ++ [(i, (j, m))])
      ≡ₚ seq 0 (length (launched st))).
    { rewrite <- (remove_first_perm i _ Hin) in Hp.
      rewrite <- Hp, fmap_app, app_assoc. simpl.
      by rewrite <- Permutation_cons_append. }
    assert (Hfifo :
      (snd <$> get_log st ++ [(i, (j, m))]) ++ items h (result_queue st)
      = put_log st).
    { rewrite fmap_app. simpl. rewrite <- app_assoc. simpl.
      by rewrite <- Hitems. }
    rewrite Hq in Hdom. destruct m; split; simpl; auto.
  - split; simpl; try done.
    rewrite <- (remove_first_perm i _ Hin) in Hp.
    rewrite <- Hp. by rewrite <- Permutation_cons_append.
Qed.

Lemma invariant_step (st : ScraperApp) (ev : event) :
  inv st → inv (step_ st ev).
Proof.
  destruct ev.
  - apply invariant_start_scrape.
  - apply invariant_thread_run.
  - apply invariant_timer_fire.
Qed.

Lemma invariant_run (evs : list event) (st : ScraperApp) :
  inv st → inv (run_ evs st).
Proof.
  revert st. induction evs as [|ev evs IH]; intros st H; [done|].
  apply IH, invariant_step, H.
Qed.

(** *** Running to completion *)

Lemma run_app (evs1 evs2 : list event) (st : ScraperApp) :
  run_ (evs1 ++ evs2) st = run_ evs2 (run_ evs1 st).
Proof. apply foldl_app. Qed.

(** Letting every started thread run leaves no thread behind. *)
Lemma run_all_threads (ts : list Thread) (st : ScraperApp) :
  threads st = ts →
  let st' := run_ (Thread_run <$> (thread_id <$> ts)) st in
  threads st' = [] ∧ after_callbacks st' = after_callbacks st
  ∧ launched st' = launched st.
Proof.
  revert st. induction ts as [|t ts IH]; intros st Hts; [done|].
  simpl. unfold run. simpl. rewrite Hts. simpl.
  rewrite decide_True by done. simpl.
  match goal with |- context [foldl _ ?s _] => specialize (IH s eq_refl) end.
  exact IH.
Qed.

(** With as many messages waiting as callbacks pending, letting each
    callback come due once leaves none pending. *)
Lemma run_all_timers (cbs : list nat) (st : ScraperApp) :
  after_callbacks st = cbs →
  length (items (queues st) (result_queue st)) = length cbs →
  let st' := run_ (Timer_fire <$> cbs) st in
  after_callbacks st' = [] ∧ threads st' = threads st
  ∧ launched st' = launched st.
Proof.
  revert st. induction cbs as [|c cbs IH]; intros st Hcbs Hlen; [done|].
  simpl. unfold run. simpl. rewrite Hcbs.
  rewrite bool_decide_eq_true_2 by apply list_elem_of_here.
  simpl. rewrite bool_decide_eq_true_2 by done.
  unfold check_queue, get_nowait. simpl.
  destruct (items (queues st) (result_queue st)) as [|[j m] rest] eqn:Hq;
    [done|].
  simpl in Hlen.
  destruct m;
    match goal with |- context [foldl _ ?s _] => specialize (IH s eq_refl) end;
    simpl in IH; apply IH; unfold items; rewrite lookup_insert_eq; simpl; lia.
Qed.

Lemma invariant_queue_length (st : ScraperApp) :
  inv st → threads st = [] →
  length (items (queues st) (result_queue st)) = length (after_callbacks st).
Proof.
  intros [_ _ _ Hw Hp Hf _ _] Hts.
  apply Permutation_length in Hw, Hp.
  rewrite Hts, length_app, length_seq, !length_fmap in Hw.
  rewrite length_app, length_seq, length_fmap in Hp.
  apply (f_equal length) in Hf. rewrite length_app, length_fmap in Hf.
  simpl in Hw. lia.
Qed.

Lemma put_log_origins (st : ScraperApp) :
  invariant requests_get BeautifulSoup select st →
  fst <$> put_log st
  = ((λ e, e.2.1) <$> get_log st)
    ++ (fst <$> items (queues st) (result_queue st)).
Proof.
  intros Hinv. rewrite <- (inv_fifo _ _ _ _ Hinv), fmap_app. f_equal.
  by rewrite <- list_fmap_compose.
Qed.

(** C1: after any sequence of events, for every launched invocation: its
    thread is still running or it has put exactly one message; its poll is
    still pending or it has taken exactly one message; and the message of
    the invocation is in exactly one place, not yet put, waiting in the
    queue once, or taken from the queue once.  What has been taken,
    followed by what waits in the queue, is what has been put, in that
    order: a message taken has left the queue, and none is lost or taken
    twice.  The message a thread puts is [success] with the results when
    [scrape] returned and [error] with the text of the exception when
    [scrape] raised.  The events can always be continued so that the
    queue is empty, every thread has put its one message, every poll has
    taken one and every message has been taken once. *)
Theorem exactly_one_outcome (evs : list event) :
  let st := run_ evs init in
  (∀ i, (i < length (launched st))%nat →
     (occurrences i (fst <$> put_log st)
      + occurrences i (thread_id <$> threads st) = 1)%nat
     ∧ (occurrences i (fst <$> get_log st)
        + occurrences i (after_callbacks st) = 1)%nat
     ∧ (occurrences i ((λ e, e.2.1) <$> get_log st)
        + occurrences i (fst <$> items (queues st) (result_queue st))
        + occurrences i (thread_id <$> threads st) = 1)%nat)
  ∧ (snd <$> get_log st) ++ items (queues st) (result_queue st) = put_log st
  ∧ (∀ i m, (i, m) ∈ put_log st →
       ∃ t, launched st !! i = Some t
            ∧ match outcome (scrape requests_get BeautifulSoup select
                               (arg_url t) (arg_selector t)
                               (Some (arg_attr t)) (arg_scrape_all t)) with
              | Return results => m = success results
              | Raise e => m = error (str_of_exception e)
              end)
  ∧ (∃ evs', let st' := run_ (evs ++ evs') init in
       launched st' = launched st
       ∧ threads st' = [] ∧ after_callbacks st' = []
       ∧ items (queues st') (result_queue st') = []
       ∧ snd <$> get_log st' = put_log st'
       ∧ ∀ i, (i < length (launched st))%nat →
           occurrences i (fst <$> put_log st') = 1%nat
           ∧ occurrences i (fst <$> get_log st') = 1%nat
           ∧ occurrences i ((λ e, e.2.1) <$> get_log st') = 1%nat).
Proof.
  intros st.
  assert (Hinv : inv st) by apply invariant_run, invariant_init.
  split_and!.
  - intros i Hi. pose proof (put_log_origins st Hinv) as Ho.
    destruct Hinv as [_ _ _ Hw Hp _ _ _].
    assert (H1 : (occurrences i (fst <$> put_log st)
                  + occurrences i (thread_id <$> threads st) = 1)%nat).
    { rewrite Nat.add_comm. by eapply occurrences_split. }
    split_and!; [done| |].
    + rewrite Nat.add_comm. by eapply occurrences_split.
    + by rewrite <- occurrences_app, <- Ho.
  - apply (inv_fifo _ _ _ _ Hinv).
  - intros i m Hin. destruct (inv_messages _ _ _ _ Hinv i m Hin) as (t & Hl & ->).
    exists t. split; [done|]. unfold outcome_message.
    by destruct (outcome _).
  - pose (st1 := run_ (Thread_run <$> (thread_id <$> threads st)) st).
    exists ((Thread_run <$> (thread_id <$> threads st))
            ++ (Timer_fire <$> after_callbacks st1)).
    simpl. rewrite !run_app. fold st. fold st1.
    destruct (run_all_threads (threads st) st eq_refl) as (Ht1 & Hc1 & Hl1).
    fold st1 in Ht1, Hc1, Hl1.
    assert (Hinv1 : inv st1) by by apply invariant_run.
    destruct (run_all_timers (after_callbacks st1) st1 eq_refl
                (invariant_queue_length st1 Hinv1 Ht1)) as (Hc2 & Ht2 & Hl2).
    set (st2 := run_ (Timer_fire <$> after_callbacks st1) st1) in *.
    assert (Hinv2 : inv st2) by by apply invariant_run.
    assert (Hq2 : items (queues st2) (result_queue st2) = []).
    { apply length_zero_iff_nil.
      rewrite (invariant_queue_length st2 Hinv2); [by rewrite Hc2|].
      by rewrite Ht2. }
    pose proof (put_log_origins st2 Hinv2) as Ho.
    rewrite Hq2, app_nil_r in Ho.
    split_and!.
    + by rewrite Hl2, Hl1.
    + by rewrite Ht2.
    + done.
    + done.
    + rewrite <- (inv_fifo _ _ _ _ Hinv2), Hq2. by rewrite app_nil_r.
    + intros i Hi. destruct Hinv2 as [_ _ _ Hw Hp _ _ _].
      rewrite Ht2, Ht1 in Hw. rewrite Hc2 in Hp. simpl in Hw, Hp.
      rewrite Hl2, Hl1 in Hw, Hp.
      rewrite <- Ho.
      rewrite (occurrences_perm _ _ _ Hw), (occurrences_perm _ _ _ Hp).
      rewrite occurrences_seq, bool_decide_eq_true_2 by lia. done.
Qed.


End Runs.


(** ** Instances *)

Lemma parse_snippets_and_indices_witness :
  let rs :=
    [mkScrapeResult 1 (VStr (py "Hello")) (Some (py "text")) (py "Hello");
     mkScrapeResult 2 (VStr (py "World")) (Some (py "text")) (py "World")] in
  (Forall (λ r, (length (snippet r) ≤ 100)%nat) rs
   ∧ index <$> rs = one_to 2
   ∧ NoDup (index <$> rs)
   ∧ ∃ soup,
       hello_world_parser (py "<p>Hello</p><p>World</p>") = Return soup
       ∧ ∃ els,
           Mock.select soup (selector_or_default (Some (py "p"))) = Return els
           ∧ length rs = length els
           ∧ ∀ i r, rs !! i = Some r →
               ∃ el, els !! i = Some el
                     ∧ index r = Z.of_nat (S i)
                     ∧ snippet r = take 100 (joined_trimmed_nodes el))
  ∧ (Forall (λ r, (length (snippet r) ≤ 100)%nat) rs
     ∧ index <$> rs = one_to 2
     ∧ NoDup (index <$> rs)
     ∧ ∃ soup,
         hello_world_parser (py "<p>Hello</p><p>World</p>") = Return soup
         ∧ text <$> rs = VStr <$> surviving_strings soup).
Proof.
  intros rs. split.
  - apply (parse_snippets_and_indices hello_world_parser Mock.select
             (py "<p>Hello</p><p>World</p>") (Some (py "p")) (Some (py "text"))
             false rs).
    vm_compute. reflexivity.
  - apply (parse_snippets_and_indices hello_world_parser Mock.select
             (py "<p>Hello</p><p>World</p>") None None true rs).
    vm_compute. reflexivity.
Defined.

Lemma select_all_results_witness :
  ∃ s, surviving_strings long_text_document !! 0%nat = Some s
       ∧ s ≠ [] ∧ strip s = s
       ∧ index (mkScrapeResult 1 (VStr (replicate 101 97%N)) (Some (py "text"))
                  (replicate 100 97%N)) = Z.of_nat 1
       ∧ VStr (replicate 101 97%N) = VStr s
       ∧ Some (py "text") = Some (py "text")
       ∧ replicate 100 97%N = take 100 s
       ∧ ((length s ≤ 100)%nat →
          VStr (replicate 101 97%N) = VStr (replicate 100 97%N)).
Proof.
  destruct (select_all_results Mock.select long_text_document None None)
    as (_ & _ & H).
  apply (H 0%nat (mkScrapeResult 1 (VStr (replicate 101 97%N)) (Some (py "text"))
                    (replicate 100 97%N))).
  vm_compute. reflexivity.
Defined.

Lemma missing_attribute_is_empty_witness :
  ∃ rs r,
    outcome (parse_document Mock.select nested_link_document
               (Some (py "a")) (Some (py "href")) false) = Return rs
    ∧ rs !! 0%nat = Some r
    ∧ index r = Z.of_nat 1
    ∧ text r = VStr []
    ∧ attr r = Some (py "href")
    ∧ snippet r = py "HelloWorld"
    ∧ (∀ s, text_nodes nested_link = [s] →
         snippet r = take 100 (trimmed_text_content nested_link)).
Proof.
  apply (missing_attribute_is_empty Mock.select nested_link_document
           (Some (py "a")) (py "href") [nested_link] 0%nat nested_link).
  - vm_compute. reflexivity.
  - reflexivity.
  - vm_compute. discriminate.
  - reflexivity.
Defined.



Lemma fetch_fails_iff_witness :
  (∃ e, outcome (fetch (Mock.server "http://h/" 503 "") (py "http://h/")) = Raise e)
  ∧ fetch (Mock.server "http://h/" 200 "") (py "http://g/")
    = ([Call_fetch (py "http://g/")],
       Raise (RequestException (py "Connection refused")))
  ∧ (∃ m, fetch (Mock.server "http://h/" 404 "") (py "http://h/")
          = ([Call_fetch (py "http://h/")], Raise (HTTPError m)))
  ∧ fetch (Mock.server "http://h/" 200 "<p>x</p>") (py "http://h/")
    = ([Call_fetch (py "http://h/")], Return (py "<p>x</p>")).
Proof.
  split_and!.
  - destruct (fetch_fails_iff (Mock.server "http://h/" 503 "") (py "http://h/"))
      as ([_ H] & _).
    apply H. right.
    exists (requests.mkResponse 503 (py "") (py "http://h/") (py "")).
    split; [vm_compute; reflexivity | simpl; lia].
  - destruct (fetch_fails_iff (Mock.server "http://h/" 200 "") (py "http://g/"))
      as (_ & H & _).
    apply H. vm_compute. reflexivity.
  - destruct (fetch_fails_iff (Mock.server "http://h/" 404 "") (py "http://h/"))
      as (_ & _ & H & _).
    apply (H (requests.mkResponse 404 (py "") (py "http://h/") (py ""))).
    + vm_compute. reflexivity.
    + simpl. lia.
  - destruct (fetch_fails_iff (Mock.server "http://h/" 200 "<p>x</p>")
                (py "http://h/")) as (_ & _ & _ & H).
    apply (H (requests.mkResponse 200 (py "") (py "http://h/") (py "<p>x</p>"))).
    + vm_compute. reflexivity.
    + simpl. lia.
Defined.

Lemma scrape_sequential_witness :
  scrape (Mock.server "http://h/" 200 "") (Mock.page "" (Mock.document []))
    Mock.select (py "http://g/") (Some (py "p")) (Some (py "text")) false
  = ([Call_fetch (py "http://g/")],
     Raise (RequestException (py "Connection refused")))
  ∧ (∃ m, scrape (Mock.server "http://h/" 404 "<p>x</p>")
            (Mock.page "" (Mock.document [])) Mock.select
            (py "http://h/") (Some (py "p")) (Some (py "text")) false
          = ([Call_fetch (py "http://h/")], Raise (HTTPError m)))
  ∧ scrape (Mock.server "http://h/" 200 "<p>x</p>")
      (Mock.page "<p>x</p>" (Mock.document [Mock.elem "p" [] [Mock.txt "x"]]))
      Mock.select (py "http://h/") (Some (py "p")) (Some (py "text")) false
    = (Call_fetch (py "http://h/")
         :: calls (parse
                     (Mock.page "<p>x</p>"
                        (Mock.document [Mock.elem "p" [] [Mock.txt "x"]]))
                     Mock.select (py "<p>x</p>") (Some (py "p"))
                     (Some (py "text")) false),
       outcome (parse
                  (Mock.page "<p>x</p>"
                     (Mock.document [Mock.elem "p" [] [Mock.txt "x"]]))
                  Mock.select (py "<p>x</p>") (Some (py "p"))
                  (Some (py "text")) false)).
Proof.
  split_and!.
  - destruct (scrape_sequential (Mock.server "http://h/" 200 "")
                (Mock.page "" (Mock.document [])) Mock.select (py "http://g/")
                (Some (py "p")) (Some (py "text")) false) as (H & _).
    apply H. vm_compute. reflexivity.
  - destruct (scrape_sequential (Mock.server "http://h/" 404 "<p>x</p>")
                (Mock.page "" (Mock.document [])) Mock.select (py "http://h/")
                (Some (py "p")) (Some (py "text")) false) as (_ & H & _).
    apply (H (requests.mkResponse 404 (py "") (py "http://h/") (py "<p>x</p>"))).
    + vm_compute. reflexivity.
    + simpl. lia.
  - destruct (scrape_sequential (Mock.server "http://h/" 200 "<p>x</p>")
                (Mock.page "<p>x</p>"
                   (Mock.document [Mock.elem "p" [] [Mock.txt "x"]]))
                Mock.select (py "http://h/")
                (Some (py "p")) (Some (py "text")) false) as (_ & _ & H).
    apply H. vm_compute. reflexivity.
Defined.

Lemma exactly_one_outcome_witness :
  let st :=
    run sample_server sample_parser Mock.select
      [sample_press;
       Scrape_button (py "http://g/") (py "p") (py "text") false;
       Thread_run 1; Timer_fire 0; Thread_run 0; Timer_fire 1] init in
  ((occurrences 0 (fst <$> put_log st)
    + occurrences 0 (thread_id <$> threads st) = 1)%nat
   ∧ (occurrences 0 (fst <$> get_log st)
      + occurrences 0 (after_callbacks st) = 1)%nat
   ∧ (occurrences 0 ((λ e, e.2.1) <$> get_log st)
      + occurrences 0 (fst <$> items (queues st) (result_queue st))
      + occurrences 0 (thread_id <$> threads st) = 1)%nat)
  ∧ ((occurrences 1 (fst <$> put_log st)
      + occurrences 1 (thread_id <$> threads st) = 1)%nat
     ∧ (occurrences 1 (fst <$> get_log st)
        + occurrences 1 (after_callbacks st) = 1)%nat
     ∧ (occurrences 1 ((λ e, e.2.1) <$> get_log st)
        + occurrences 1 (fst <$> items (queues st) (result_queue st))
        + occurrences 1 (thread_id <$> threads st) = 1)%nat)
  ∧ [(1%nat, error (py "Connection refused"));
     (0%nat, success [mkScrapeResult 1 (VStr (py "x")) (Some (py "text"))
                        (py "x")])] ++ []
    = put_log st
  ∧ ∃ t, launched st !! 1%nat = Some t
         ∧ match outcome (scrape sample_server sample_parser Mock.select
                            (arg_url t) (arg_selector t) (Some (arg_attr t))
                            (arg_scrape_all t)) with
           | Return results => error (py "Connection refused") = success results
           | Raise e => error (py "Connection refused") = error (str_of_exception e)
           end.
Proof.
  intros st.
  destruct (exactly_one_outcome sample_server sample_parser Mock.select
              [sample_press;
               Scrape_button (py "http://g/") (py "p") (py "text") false;
               Thread_run 1; Timer_fire 0; Thread_run 0; Timer_fire 1])
    as (H1 & H2 & H3 & _).
  split; [|split; [|split]].
  - apply (H1 0%nat). vm_compute. lia.
  - apply (H1 1%nat). vm_compute. lia.
  - vm_compute in H2. vm_compute. exact H2.
  - apply (H3 1%nat (error (py "Connection refused"))).
    vm_compute. apply list_elem_of_here.
Defined.

(** ** More on the extractor *)

Lemma lstrip_spaces (s : str) :
  Forall (λ c, isspace c = true) s → lstrip s = [].
Proof. induction 1 as [|c s Hc _ IH]; simpl; [done|]. by rewrite Hc. Qed.

Lemma strip_spaces (s : str) :
  Forall (λ c, isspace c = true) s → strip s = [].
Proof. intros H. unfold strip. by rewrite (lstrip_spaces s H). Qed.

(** X1: in selector mode, when the engine returns the matched elements,
    [parse_document] returns exactly one result per element, in match
    order: result [i] carries index [i + 1], the attribute asked for, and
    as snippet, whatever the attribute, the first 100 characters of the
    text made of the element's text nodes each trimmed, the empty ones
    dropped, joined without a separator.  No match gives the empty
    sequence. *)
Theorem one_result_per_match select (soup : Tag) (selector attr_ : option str)
    (els : list Tag) :
  select soup (selector_or_default selector) = Return els →
  ∃ rs,
    outcome (parse_document select soup selector attr_ false) = Return rs
    ∧ length rs = length els
    ∧ (els = [] → rs = [])
    ∧ ∀ i el, els !! i = Some el →
        ∃ r, rs !! i = Some r
             ∧ index r = Z.of_nat (S i)
             ∧ attr r = attr_
             ∧ snippet r = take 100 (joined_trimmed_nodes el).
Proof.
  intros Hsel. rewrite parse_document_selected, Hsel. simpl.
  eexists. split; [reflexivity|]. split_and!.
  - by rewrite length_fmap, enumerate_length.
  - by intros ->.
  - intros i el Hel. eexists.
    rewrite list_lookup_fmap, enumerate_lookup, Hel. simpl.
    split; [reflexivity|]. simpl. split_and!; [lia|done|].
    by rewrite get_text_joined.
Qed.

(** X2: in selector mode with the attribute [text], the value of a result
    is the element's stripped text and the snippet is its first 100
    characters, so the two are equal when the text has at most 100
    characters. *)
Theorem text_value_and_snippet select (soup : Tag) (selector : option str)
    (els : list Tag) (rs : list ScrapeResult) (i : nat) (r : ScrapeResult) :
  select soup (selector_or_default selector) = Return els →
  outcome (parse_document select soup selector (Some (py "text")) false)
  = Return rs →
  rs !! i = Some r →
  ∃ el, els !! i = Some el
        ∧ text r = VStr (get_text el)
        ∧ snippet r = take 100 (get_text el)
        ∧ ((length (get_text el) ≤ 100)%nat → text r = VStr (snippet r)).
Proof.
  intros Hsel. rewrite parse_document_selected, Hsel. simpl.
  intros [= <-]. rewrite list_lookup_fmap, enumerate_lookup.
  destruct (els !! i) as [el|]; [|done]. simpl. intros [= <-].
  exists el. simpl. split_and!; try done.
  intros Hlen. by rewrite take_ge.
Qed.

(** X3: in selector mode with an attribute other than [text], an element
    whose attribute holds a single string gives that string as value; an
    attribute present with the empty string therefore gives the same value
    as a missing attribute. *)
Theorem single_valued_attribute select (soup : Tag) (selector : option str)
    (a v : str) (els : list Tag) (i : nat) (el : Tag) :
  select soup (selector_or_default selector) = Return els →
  els !! i = Some el →
  a ≠ py "text" →
  attrs el !! a = Some (AttrStr v) →
  ∃ rs r,
    outcome (parse_document select soup selector (Some a) false) = Return rs
    ∧ rs !! i = Some r
    ∧ text r = VStr v.
Proof.
  intros Hsel Hel Ha Hattr.
  rewrite parse_document_selected, Hsel. simpl.
  eexists _, _. split; [reflexivity|].
  rewrite list_lookup_fmap, enumerate_lookup, Hel. simpl.
  split; [reflexivity|]. simpl.
  rewrite bool_decide_eq_false_2 by congruence.
  unfold get. rewrite Hattr. simpl. by destruct v.
Qed.

(** X4: the comprehension of the whole-page branch strips and filters
    strings that [stripped_strings] has already stripped and filtered: the
    list it builds is [stripped_strings] itself. *)
Theorem restrip_is_identity (soup : Tag) :
  strip <$> filter (λ text_, truthy (strip text_)) (stripped_strings soup)
  = stripped_strings soup.
Proof. by rewrite parse_all_strings, stripped_strings_surviving. Qed.

(** X5: a document whose text nodes are all whitespace (in particular a
    document without text nodes) gives the empty result sequence in
    whole-page mode. *)
Theorem blank_document_gives_no_results select (soup : Tag)
    (selector attr_ : option str) :
  Forall (λ s, Forall (λ c, isspace c = true) s) (text_nodes soup) →
  parse_document select soup selector attr_ true = ([], Return []).
Proof.
  intros H. rewrite parse_document_all, parse_all_spec.
  unfold select_all_spec, surviving_strings.
  induction H as [|s l Hs _ IH]; [done|].
  rewrite fmap_cons, (strip_spaces s Hs), filter_cons.
  rewrite decide_False by (by intros []). exact IH.
Qed.

(** X6: [scrape] enters [fetch] once, then at most [parse], then at most
    the CSS engine, in this order; an error of the HTML parser or of the
    CSS engine ends [scrape] with that same error. *)
Theorem scrape_stages requests_get BeautifulSoup select (url_ : str)
    (selector attr_ : option str) (scrape_all : bool) :
  let m := scrape requests_get BeautifulSoup select url_ selector attr_
             scrape_all in
  (calls m = [Call_fetch url_]
   ∨ ∃ html,
       outcome (fetch requests_get url_) = Return html
       ∧ (calls m = [Call_fetch url_; Call_parse html selector attr_ scrape_all]
          ∨ scrape_all = false
            ∧ calls m = [Call_fetch url_;
                         Call_parse html selector attr_ scrape_all;
                         Call_select (selector_or_default selector)]))
  ∧ (∀ html e,
       outcome (fetch requests_get url_) = Return html →
       BeautifulSoup html = Raise e →
       m = ([Call_fetch url_; Call_parse html selector attr_ scrape_all],
            Raise e))
  ∧ (∀ html soup e,
       outcome (fetch requests_get url_) = Return html →
       BeautifulSoup html = Return soup →
       scrape_all = false →
       select soup (selector_or_default selector) = Raise e →
       m = ([Call_fetch url_; Call_parse html selector attr_ false;
             Call_select (selector_or_default selector)], Raise e)).
Proof.
  intros m. subst m. rewrite scrape_unfold. split_and!.
  - destruct (outcome (fetch requests_get url_)) as [html|e]; [|by left].
    right. exists html. split; [done|]. rewrite parse_unfold.
    destruct (BeautifulSoup html) as [soup|e]; [|by left].
    destruct scrape_all.
    + left. by rewrite parse_document_all.
    + right. split; [done|]. by rewrite parse_document_selected.
  - intros html e -> Hsoup. by rewrite parse_unfold, Hsoup.
  - intros html soup e -> Hsoup -> Hsel.
    by rewrite parse_unfold, Hsoup, parse_document_selected, Hsel.
Qed.

(** ** More on the runner *)

(** X7: a URL field holding only whitespace is treated as missing, and so
    is, in selector mode, a selector field holding only whitespace: the
    press starts no thread, schedules no callback, leaves queue, table and
    status as they are and shows one warning; the URL is checked first. *)
Theorem blank_fields_are_rejected (u s a : str) (all : bool) (st : ScraperApp) :
  (Forall (λ c, isspace c = true) u →
   start_scrape u s a all st
   = mkApp (queues st) (result_queue st) (threads st) (after_callbacks st)
       (tree st) (status_var st)
       (dialogs st ++ [showwarning (py "Missing Fields")
                         (py "Please provide a URL.")])
       (launched st) (put_log st) (get_log st))
  ∧ (strip u ≠ [] → all = false → Forall (λ c, isspace c = true) s →
     start_scrape u s a all st
     = mkApp (queues st) (result_queue st) (threads st) (after_callbacks st)
         (tree st) (status_var st)
         (dialogs st ++ [showwarning (py "Missing Fields")
            (py "Please provide a CSS selector or enable full-page mode.")])
         (launched st) (put_log st) (get_log st)).
Proof.
  split.
  - intros Hu. unfold start_scrape. by rewrite (strip_spaces u Hu).
  - intros Hu -> Hs. unfold start_scrape. rewrite (strip_spaces s Hs).
    by destruct (strip u).
Qed.

Section MoreRuns.

Variable requests_get : str -> result requests.Response.
Variable BeautifulSoup : str -> result Tag.
Variable select : Tag -> str -> result (list Tag).

#[local] Abbreviation inv := (invariant requests_get BeautifulSoup select).
#[local] Abbreviation step_ := (step requests_get BeautifulSoup select).
#[local] Abbreviation run_ := (run requests_get BeautifulSoup select).
#[local] Abbreviation scrape_ := (scrape requests_get BeautifulSoup select).
#[local] Abbreviation message_of :=
  (outcome_message requests_get BeautifulSoup select).

(** A property that holds at the start and that every event preserves
    holds after every run. *)
Lemma run_induction (P : ScraperApp → Prop) :
  P init →
  (∀ st ev, inv st → P st → P (step_ st ev)) →
  ∀ evs, P (run_ evs init).
Proof.
  intros Hinit Hstep evs.
  assert (H : ∀ st, inv st → P st → P (run_ evs st)).
  { induction evs as [|ev evs IH]; intros st Hinv HP; [done|].
    apply IH; [by apply invariant_step | by apply Hstep]. }
  apply H; [apply invariant_init | done].
Qed.

Lemma launched_step (st : ScraperApp) (ev : event) :
  launched (step_ st ev) = launched st
  ∨ ∃ u s a all,
      ev = Scrape_button u s a all
      ∧ strip u ≠ []
      ∧ (all = true ∨ strip s ≠ [])
      ∧ launched (step_ st ev)
        = launched st
          ++ [mkThread (length (launched st)) (strip u)
                (if truthy (strip s) then Some (strip s) else None)
                (strip a) all].
Proof.
  destruct ev as [u s a all|i|i]; simpl.
  - unfold start_scrape.
    destruct (strip u) as [|c u'] eqn:Hu; simpl; [by left|].
    destruct all; simpl.
    + right. exists u, s, a, true. rewrite Hu. by split_and!; auto.
    + destruct (strip s) as [|d s'] eqn:Hs; simpl; [by left|].
      right. exists u, s, a, false. rewrite Hu, Hs. by split_and!; auto.
  - left. by destruct (list_find _ _) as [[k t]|].
  - left. case_bool_decide; [|done]. unfold check_queue.
    by destruct (get_nowait _ _) as [[[j []] h]|].
Qed.

(** X8: every thread the application ever starts is given a URL that is
    stripped and not empty, a stripped attribute name, and a selector that
    is either absent or stripped and not empty; in selector mode the
    selector is present, so that [parse] never falls back on [body *]. *)
Theorem launched_arguments_valid (evs : list event) (t : Thread) :
  t ∈ launched (run_ evs init) →
  arg_url t ≠ [] ∧ strip (arg_url t) = arg_url t
  ∧ strip (arg_attr t) = arg_attr t
  ∧ arg_selector t ≠ Some []
  ∧ (∀ s, arg_selector t = Some s → strip s = s)
  ∧ (arg_scrape_all t = false →
     ∃ s, arg_selector t = Some s ∧ s ≠ []
          ∧ selector_or_default (arg_selector t) = s).
Proof.
  revert t. apply (run_induction (λ st, ∀ t, t ∈ launched st → _)).
  - intros t H. by apply elem_of_nil in H.
  - intros st ev _ IH t.
    destruct (launched_step st ev) as [->|(u & s & a & all & _ & Hu & Hs & ->)];
      [apply IH|].
    intros [Hin| ->%list_elem_of_singleton]%elem_of_app; [by apply IH|].
    simpl. split_and!; try done; try apply strip_idemp.
    + by destruct (strip s).
    + intros s'. destruct (strip s) eqn:Hs'; simpl; [done|].
      intros [= <-]. rewrite <- Hs'. apply strip_idemp.
    + intros ->. destruct Hs as [|Hs]; [done|].
      destruct (strip s) eqn:Hs'; [done|]. simpl. by eexists.
Qed.

Lemma scrape_all_outcome (url_ : str) (selector attr_ : option str) :
  outcome (scrape_ url_ selector attr_ true)
  = match outcome (fetch requests_get url_) with
    | Raise e => Raise e
    | Return html =>
        match BeautifulSoup html with
        | Raise e => Raise e
        | Return soup => Return (parse_all soup)
        end
    end.
Proof.
  rewrite scrape_unfold. destruct (outcome (fetch _ _)) as [html|e]; [|done].
  simpl. rewrite parse_unfold. by destruct (BeautifulSoup html).
Qed.

(** X9: with the full-page box ticked, what the selector and attribute
    fields hold has no effect on the outcome: two presses that differ only
    in these fields start threads that will put the same message. *)
Theorem full_page_ignores_selector_and_attribute (u s1 s2 a1 a2 : str)
    (st : ScraperApp) :
  (λ t, (thread_id t, message_of t)) <$> threads (start_scrape u s1 a1 true st)
  = (λ t, (thread_id t, message_of t)) <$> threads (start_scrape u s2 a2 true st)
  ∧ after_callbacks (start_scrape u s1 a1 true st)
    = after_callbacks (start_scrape u s2 a2 true st)
  ∧ dialogs (start_scrape u s1 a1 true st)
    = dialogs (start_scrape u s2 a2 true st).
Proof.
  unfold start_scrape. destruct (negb (truthy (strip u))); [done|]. simpl.
  split_and!; try done. rewrite !fmap_app. f_equal. simpl.
  unfold outcome_message. simpl. by rewrite !scrape_all_outcome.
Qed.

Lemma displayed_success (log : list (nat * (nat * message))) (i j : nat)
    (data : list ScrapeResult) :
  displayed (log ++ [(i, (j, success data))]) = populate_results data.
Proof.
  unfold displayed, last_success. rewrite omap_app.
  change (omap _ [(i, (j, success data))]) with [data]. by rewrite last_snoc.
Qed.

Lemma displayed_error (log : list (nat * (nat * message))) (i j : nat)
    (data : str) :
  displayed (log ++ [(i, (j, error data))]) = displayed log.
Proof.
  unfold displayed, last_success. rewrite omap_app.
  change (omap _ [(i, (j, error data))]) with (@nil (list ScrapeResult)).
  by rewrite app_nil_r.
Qed.

Lemma tree_displayed_run (evs : list event) :
  tree (run_ evs init) = displayed (get_log (run_ evs init)).
Proof.
  apply (run_induction (λ st, tree st = displayed (get_log st))); [done|].
  intros st ev _ IH. destruct ev as [u s a all|i|i]; simpl.
  - unfold start_scrape. by repeat case_match.
  - by destruct (list_find _ _) as [[k t]|].
  - case_bool_decide; [|done]. unfold check_queue.
    destruct (get_nowait _ _) as [[[j [data|data]] h]|]; simpl.
    + by rewrite displayed_success.
    + by rewrite displayed_error.
    + done.
Qed.

(** X10: after any run the table holds the rows of the most recent
    [success] message taken from the queue (an [error] message leaves them
    in place), and the export acts on these rows: without rows it only
    says so and asks for no file; when the dialog is cancelled or the file
    cannot be opened no row is written; otherwise it writes the header and
    then exactly these rows, in order, before reporting the export. *)
Theorem export_writes_last_success (evs : list event) (file_path : str)
    (open_ : str -> result unit) :
  let st := run_ evs init in
  tree st = displayed (get_log st)
  ∧ (displayed (get_log st) = [] →
     export_csv file_path open_ st
     = ([showinfo (py "No Data") (py "No scraped data to export.")], Return tt))
  ∧ (displayed (get_log st) ≠ [] → file_path = [] →
     export_csv file_path open_ st = ([asksaveasfilename], Return tt))
  ∧ (∀ e, displayed (get_log st) ≠ [] → file_path ≠ [] →
       open_ file_path = Raise e →
       export_csv file_path open_ st
       = ([asksaveasfilename; open_w file_path], Raise e))
  ∧ (displayed (get_log st) ≠ [] → file_path ≠ [] →
     open_ file_path = Return tt →
     export_csv file_path open_ st
     = ([asksaveasfilename; open_w file_path;
         writerow_header [py "Index"; py "Value"; py "Snippet"]]
        ++ (writerow_item <$> displayed (get_log st))
        ++ [showinfo (py "Exported") (py "Data exported to " ++ file_path)],
        Return tt)).
Proof.
  intros st. pose proof (tree_displayed_run evs) as Htree. fold st in Htree.
  unfold export_csv. rewrite Htree.
  split_and!; [done|..].
  - by intros ->.
  - intros Hrows ->. by destruct (displayed _).
  - intros e Hrows Hpath Hopen. destruct (displayed _); [done|].
    destruct file_path; [done|]. simpl. by rewrite Hopen.
  - intros Hrows Hpath Hopen. destruct (displayed _); [done|].
    destruct file_path; [done|]. simpl. by rewrite Hopen.
Qed.

Lemma scrape_wellformed (url_ : str) (selector attr_ : option str)
    (scrape_all : bool) (rs : list ScrapeResult) :
  outcome (scrape_ url_ selector attr_ scrape_all) = Return rs →
  Forall (λ r, (length (snippet r) ≤ 100)%nat) rs
  ∧ index <$> rs = one_to (length rs).
Proof.
  rewrite scrape_unfold. destruct (outcome (fetch _ _)) as [html|e]; [|done].
  simpl. rewrite parse_unfold. destruct (BeautifulSoup html) as [soup|e]; [|done].
  simpl. apply parse_document_wellformed.
Qed.

(** X11: after any run the rows of the table are numbered 1, 2, ..., N
    from top to bottom, N being the number of rows, and no snippet in the
    table is longer than 100 characters. *)
Theorem table_rows_numbered (evs : list event) :
  let st := run_ evs init in
  (λ row, row.1.1) <$> tree st = one_to (length (tree st))
  ∧ Forall (λ row, (length row.2 ≤ 100)%nat) (tree st).
Proof.
  apply (run_induction
           (λ st, (λ row, row.1.1) <$> tree st = one_to (length (tree st))
                  ∧ Forall (λ row, (length row.2 ≤ 100)%nat) (tree st)));
    [by split|].
  intros st ev Hinv IH. destruct ev as [u s a all|i|i]; simpl.
  - unfold start_scrape. by repeat case_match.
  - by destruct (list_find _ _) as [[k t]|].
  - case_bool_decide; [|done]. unfold check_queue. simpl.
    destruct (get_nowait _ _) as [[[j [data|data]] h]|] eqn:Hget; simpl;
      [|done..].
    apply get_nowait_some in Hget as [Hitems _].
    assert (Hin : (j, success data) ∈ put_log st).
    { rewrite <- (inv_fifo _ _ _ _ Hinv), Hitems.
      apply elem_of_app. right. apply list_elem_of_here. }
    destruct (inv_messages _ _ _ _ Hinv j _ Hin) as (t & _ & Hm).
    unfold outcome_message in Hm.
    destruct (outcome (scrape _ _ _ _ _ _ _)) as [rs|e] eqn:Hrs; [|done].
    injection Hm as ->. apply scrape_wellformed in Hrs as [Hs Hi].
    unfold populate_results. rewrite length_fmap, <- Hi. split.
    + by rewrite <- list_fmap_compose.
    + apply Forall_fmap. by eapply Forall_impl.
Qed.

(** X12: after any run the status line reads [Ready], [Scraping...],
    [Error occurred.] or [Scraped N items.] with N the number of rows in
    the table: it never reports a count that differs from the table. *)
Theorem status_matches_table (evs : list event) :
  let st := run_ evs init in
  status_var st
  ∈ [py "Ready"; py "Scraping..."; py "Error occurred.";
     scraped_status (length (tree st))].
Proof.
  apply (run_induction
           (λ st, status_var st
                  ∈ [py "Ready"; py "Scraping..."; py "Error occurred.";
                     scraped_status (length (tree st))])).
  - apply list_elem_of_here.
  - intros st ev _ IH. destruct ev as [u s a all|i|i]; simpl.
    + unfold start_scrape. repeat case_match; simpl; try done;
        apply list_elem_of_further, list_elem_of_here.
    + by destruct (list_find _ _) as [[k t]|].
    + case_bool_decide; [|done]. unfold check_queue. simpl.
      destruct (get_nowait _ _) as [[[j [data|data]] h]|]; simpl; [| |done].
      * unfold populate_results. rewrite length_fmap.
        do 3 apply list_elem_of_further. apply list_elem_of_here.
      * do 2 apply list_elem_of_further. apply list_elem_of_here.
Qed.

Lemma remove_first_perm' (i : nat) (l : list nat) :
  (if bool_decide (i ∈ l) then remove_first i l ++ [i] else l) ≡ₚ l.
Proof.
  case_bool_decide as Hin; [|done].
  by rewrite <- Permutation_cons_append, remove_first_perm.
Qed.

(** X13: callbacks that come due while nothing waits in the queue change
    nothing the user or the threads can see: queue, running threads,
    table, status line and dialogs stay as they are and the same callbacks
    stay pending, in a possibly different order. *)
Theorem empty_polls_change_nothing (polls : list nat) (st : ScraperApp) :
  items (queues st) (result_queue st) = [] →
  let st' := run_ (Timer_fire <$> polls) st in
  queues st' = queues st ∧ result_queue st' = result_queue st
  ∧ threads st' = threads st
  ∧ tree st' = tree st ∧ status_var st' = status_var st
  ∧ dialogs st' = dialogs st
  ∧ put_log st' = put_log st ∧ get_log st' = get_log st
  ∧ after_callbacks st' ≡ₚ after_callbacks st.
Proof.
  revert st. induction polls as [|i polls IH]; intros st Hq; [done|].
  rewrite fmap_cons. cbv zeta.
  change (run_ (Timer_fire i :: (Timer_fire <$> polls)) st)
    with (run_ (Timer_fire <$> polls) (step_ st (Timer_fire i))).
  set (st1 := step_ st (Timer_fire i)).
  assert (H1 : queues st1 = queues st ∧ result_queue st1 = result_queue st
               ∧ threads st1 = threads st
               ∧ tree st1 = tree st ∧ status_var st1 = status_var st
               ∧ dialogs st1 = dialogs st
               ∧ put_log st1 = put_log st ∧ get_log st1 = get_log st
               ∧ after_callbacks st1 ≡ₚ after_callbacks st).
  { subst st1. simpl.
    pose proof (remove_first_perm' i (after_callbacks st)) as Hp.
    case_bool_decide; [|done].
    unfold check_queue, get_nowait. simpl. rewrite Hq. simpl. done. }
  destruct H1 as (E1 & E2 & E3 & E4 & E5 & E6 & E7 & E8 & E9).
  destruct (IH st1) as (F1 & F2 & F3 & F4 & F5 & F6 & F7 & F8 & F9).
  { by rewrite E1, E2. }
  rewrite F1, F2, F3, F4, F5, F6, F7, F8, F9. done.
Qed.

Lemma start_scrape_launch (u s a : str) (all : bool) (st : ScraperApp) :
  strip u ≠ [] → all = true ∨ strip s ≠ [] →
  start_scrape u s a all st
  = let t := mkThread (length (launched st)) (strip u)
               (if truthy (strip s) then Some (strip s) else None)
               (strip a) all in
    mkApp (queues st) (result_queue st) (threads st ++ [t])
      (after_callbacks st ++ [length (launched st)])
      (tree st) (py "Scraping...") (dialogs st)
      (launched st ++ [t]) (put_log st) (get_log st).
Proof.
  intros Hu Hs. unfold start_scrape.
  destruct (strip u); [done|]. simpl.
  destruct Hs as [->|Hs]; [done|]. destruct (strip s); [done|].
  by rewrite andb_false_r.
Qed.

Lemma thread_run_single (t : Thread) q rq cbs tr sv dl la pl gl :
  step_ (mkApp q rq [t] cbs tr sv dl la pl gl) (Thread_run (thread_id t))
  = mkApp (put rq (thread_id t, message_of t) q) rq [] cbs tr sv dl la
      (pl ++ [(thread_id t, message_of t)]) gl.
Proof. simpl. by rewrite decide_True. Qed.

Lemma timer_fire_single (i j : nat) (m : message) q rq ths tr sv dl la pl gl :
  items q rq = [(j, m)] →
  step_ (mkApp q rq ths [i] tr sv dl la pl gl) (Timer_fire i)
  = match m with
    | success data =>
        mkApp (<[rq := []]> q) rq ths [] (populate_results data)
          (scraped_status (length data)) dl la pl
          (gl ++ [(i, (j, success data))])
    | error data =>
        mkApp (<[rq := []]> q) rq ths [] tr (py "Error occurred.")
          (dl ++ [showerror (py "Error") data]) la pl
          (gl ++ [(i, (j, error data))])
    end.
Proof.
  intros Hq. simpl. rewrite bool_decide_eq_true_2 by apply list_elem_of_here.
  simpl. rewrite bool_decide_eq_true_2 by done.
  unfold check_queue, get_nowait. simpl. rewrite Hq. by destruct m.
Qed.

(** X14: started from a state with no thread running, no callback
    pending and an empty queue, one accepted press followed by the end of
    its thread and by its callback leaves such a state again, with the
    outcome of [scrape] on the stripped fields on display: on return the
    table holds one row per result and the status line their number; on
    an exception the table is unchanged, the status line reads
    [Error occurred.] and one error dialog shows the text of the
    exception. *)
Theorem scrape_then_poll (u s a : str) (all : bool) (st : ScraperApp) :
  idle st → strip u ≠ [] → all = true ∨ strip s ≠ [] →
  let n := length (launched st) in
  let st' := run_ [Scrape_button u s a all; Thread_run n; Timer_fire n] st in
  idle st'
  ∧ match outcome (scrape_ (strip u)
                     (if truthy (strip s) then Some (strip s) else None)
                     (Some (strip a)) all) with
    | Return rs =>
        tree st' = populate_results rs
        ∧ status_var st' = scraped_status (length rs)
        ∧ dialogs st' = dialogs st
    | Raise e =>
        tree st' = tree st
        ∧ status_var st' = py "Error occurred."
        ∧ dialogs st' = dialogs st ++ [showerror (py "Error") (str_of_exception e)]
    end.
Proof.
  destruct st as [q rq ths cbs tr sv dl la pl gl].
  intros (Hts & Hcbs & Hq) Hu Hs n st'. simpl in Hts, Hcbs, Hq. subst ths cbs.
  subst st' n. cbn [launched].
  set (t := mkThread (length la) (strip u)
              (if truthy (strip s) then Some (strip s) else None) (strip a) all).
  assert (E1 : step_ (mkApp q rq [] [] tr sv dl la pl gl)
                 (Scrape_button u s a all)
               = mkApp q rq [t] [length la] tr (py "Scraping...") dl
                   (la ++ [t]) pl gl).
  { simpl. by rewrite (start_scrape_launch u s a all _ Hu Hs). }
  assert (E2 : step_ (mkApp q rq [t] [length la] tr (py "Scraping...") dl
                        (la ++ [t]) pl gl) (Thread_run (length la))
               = mkApp (put rq (length la, message_of t) q) rq [] [length la]
                   tr (py "Scraping...") dl (la ++ [t])
                   (pl ++ [(length la, message_of t)]) gl).
  { apply (thread_run_single t). }
  change (run_ [Scrape_button u s a all; Thread_run (length la);
                Timer_fire (length la)] (mkApp q rq [] [] tr sv dl la pl gl))
    with (step_ (step_ (step_ (mkApp q rq [] [] tr sv dl la pl gl)
                          (Scrape_button u s a all))
                   (Thread_run (length la))) (Timer_fire (length la))).
  rewrite E1, E2.
  rewrite (timer_fire_single (length la) (length la) (message_of t))
    by (by rewrite items_put, Hq).
  unfold outcome_message. cbn [arg_url arg_selector arg_attr arg_scrape_all t].
  destruct (outcome (scrape_ _ _ _ _)) as [rs|e];
    (split;
     [ unfold idle; cbn [threads after_callbacks queues result_queue];
       split_and!; [done | done | unfold items; by rewrite lookup_insert_eq]
     | by cbn ]).
Qed.

End MoreRuns.

(** ** Further instances *)

Lemma one_result_per_match_witness :
  ∃ rs,
    outcome (parse_document Mock.select two_links_document
               (Some (py "a")) (Some (py "href")) false) = Return rs
    ∧ length rs = 2%nat
    ∧ (∃ r, rs !! 0%nat = Some r
            ∧ index r = 1
            ∧ attr r = Some (py "href")
            ∧ snippet r = py "HelloWorld")
    ∧ (∃ r, rs !! 1%nat = Some r
            ∧ index r = 2
            ∧ attr r = Some (py "href")
            ∧ snippet r = py "second").
Proof.
  destruct (one_result_per_match Mock.select two_links_document
              (Some (py "a")) (Some (py "href")) [nested_link; second_link])
    as (rs & Hrs & Hlen & _ & H).
  { vm_compute. reflexivity. }
  exists rs. split; [exact Hrs|]. split; [exact Hlen|]. split.
  - exact (H 0%nat nested_link eq_refl).
  - exact (H 1%nat second_link eq_refl).
Defined.

Lemma text_value_and_snippet_witness :
  ∃ el,
    [mkTag (py "p") ∅ [NavigableString; CData] [Mock.txt "x"]] !! 0%nat = Some el
    ∧ VStr (py "x") = VStr (get_text el)
    ∧ py "x" = take 100 (get_text el)
    ∧ ((length (get_text el) ≤ 100)%nat → VStr (py "x") = VStr (py "x")).
Proof.
  apply (text_value_and_snippet Mock.select sample_document (Some (py "p"))
           [mkTag (py "p") ∅ [NavigableString; CData] [Mock.txt "x"]]
           [mkScrapeResult 1 (VStr (py "x")) (Some (py "text")) (py "x")]
           0%nat
           (mkScrapeResult 1 (VStr (py "x")) (Some (py "text")) (py "x"))).
  - vm_compute. reflexivity.
  - vm_compute. reflexivity.
  - reflexivity.
Defined.

Lemma single_valued_attribute_witness :
  ∃ rs r,
    outcome (parse_document Mock.select
               (Mock.document
                  [Mock.elem "a" [("href"%string, AttrStr (py ""))] [Mock.txt "l"]])
               (Some (py "a")) (Some (py "href")) false) = Return rs
    ∧ rs !! 0%nat = Some r
    ∧ text r = VStr (py "").
Proof.
  apply (single_valued_attribute Mock.select
           (Mock.document
              [Mock.elem "a" [("href"%string, AttrStr (py ""))] [Mock.txt "l"]])
           (Some (py "a")) (py "href") (py "")
           [mkTag (py "a") {[py "href" := AttrStr (py "")]}
              [NavigableString; CData] [Mock.txt "l"]] 0%nat
           (mkTag (py "a") {[py "href" := AttrStr (py "")]}
              [NavigableString; CData] [Mock.txt "l"])).
  - vm_compute. reflexivity.
  - reflexivity.
  - vm_compute. discriminate.
  - vm_compute. reflexivity.
Defined.

Lemma blank_document_gives_no_results_witness :
  parse_document Mock.select
    (Mock.document [Mock.elem "p" [] [Mock.txt "  "]; Mock.txt " "])
    (Some (py "p")) None true
  = ([], Return []).
Proof.
  apply (blank_document_gives_no_results Mock.select
           (Mock.document [Mock.elem "p" [] [Mock.txt "  "]; Mock.txt " "])).
  vm_compute. repeat constructor.
Defined.

Lemma scrape_stages_witness :
  scrape sample_server sample_parser Mock.select (py "http://h/")
    (Some (py "p[")) (Some (py "text")) false
  = ([Call_fetch (py "http://h/");
      Call_parse (py "<p>x</p>") (Some (py "p[")) (Some (py "text")) false;
      Call_select (selector_or_default (Some (py "p[")))],
     Raise (SelectorSyntaxError (py "Invalid character"))).
Proof.
  destruct (scrape_stages sample_server sample_parser Mock.select
              (py "http://h/") (Some (py "p[")) (Some (py "text")) false)
    as (_ & _ & H).
  apply (H (py "<p>x</p>") sample_document).
  - vm_compute. reflexivity.
  - vm_compute. reflexivity.
  - reflexivity.
  - vm_compute. reflexivity.
Defined.

Lemma blank_fields_are_rejected_witness :
  start_scrape (py "  ") (py "p") (py "text") false init
  = mkApp (queues init) (result_queue init) (threads init)
      (after_callbacks init) (tree init) (status_var init)
      (dialogs init ++ [showwarning (py "Missing Fields")
                          (py "Please provide a URL.")])
      (launched init) (put_log init) (get_log init)
  ∧ start_scrape (py "http://h/") (py " ") (py "text") false init
    = mkApp (queues init) (result_queue init) (threads init)
        (after_callbacks init) (tree init) (status_var init)
        (dialogs init ++ [showwarning (py "Missing Fields")
           (py "Please provide a CSS selector or enable full-page mode.")])
        (launched init) (put_log init) (get_log init).
Proof.
  split.
  - destruct (blank_fields_are_rejected (py "  ") (py "p") (py "text") false init)
      as [H _].
    apply H. vm_compute. repeat constructor.
  - destruct (blank_fields_are_rejected (py "http://h/") (py " ") (py "text")
                false init) as [_ H].
    apply H.
    + vm_compute. discriminate.
    + reflexivity.
    + vm_compute. repeat constructor.
Defined.

Lemma launched_arguments_valid_witness :
  py "http://h/" ≠ [] ∧ strip (py "http://h/") = py "http://h/"
  ∧ strip (py "text") = py "text"
  ∧ Some (py "p") ≠ Some []
  ∧ (∀ s, Some (py "p") = Some s → strip s = s)
  ∧ (false = false →
     ∃ s, Some (py "p") = Some s ∧ s ≠ []
          ∧ selector_or_default (Some (py "p")) = s).
Proof.
  apply (launched_arguments_valid sample_server sample_parser Mock.select
           [Scrape_button (py " http://h/ ") (py "p ") (py "text") false]
           (mkThread 0 (py "http://h/") (Some (py "p")) (py "text") false)).
  vm_compute. apply list_elem_of_here.
Defined.

Lemma export_writes_last_success_witness :
  export_csv (py "out.csv") (λ _, Return tt)
    (run sample_server sample_parser Mock.select
       [sample_press; Thread_run 0; Timer_fire 0] init)
  = ([asksaveasfilename; open_w (py "out.csv");
      writerow_header [py "Index"; py "Value"; py "Snippet"]]
     ++ (writerow_item
           <$> displayed
                 (get_log (run sample_server sample_parser Mock.select
                             [sample_press; Thread_run 0; Timer_fire 0] init)))
     ++ [showinfo (py "Exported") (py "Data exported to " ++ py "out.csv")],
     Return tt).
Proof.
  destruct (export_writes_last_success sample_server sample_parser Mock.select
              [sample_press; Thread_run 0; Timer_fire 0] (py "out.csv")
              (λ _, Return tt)) as (_ & _ & _ & _ & H).
  apply H.
  - vm_compute. discriminate.
  - vm_compute. discriminate.
  - reflexivity.
Defined.

Lemma empty_polls_change_nothing_witness :
  let st := run sample_server sample_parser Mock.select [sample_press] init in
  let st' := run sample_server sample_parser Mock.select
               (Timer_fire <$> [0; 0; 0]%nat) st in
  queues st' = queues st ∧ result_queue st' = result_queue st
  ∧ threads st' = threads st
  ∧ tree st' = tree st ∧ status_var st' = status_var st
  ∧ dialogs st' = dialogs st
  ∧ put_log st' = put_log st ∧ get_log st' = get_log st
  ∧ after_callbacks st' ≡ₚ after_callbacks st.
Proof.
  apply (empty_polls_change_nothing sample_server sample_parser Mock.select
           [0; 0; 0]%nat
           (run sample_server sample_parser Mock.select [sample_press] init)).
  vm_compute. reflexivity.
Defined.

Lemma scrape_then_poll_witness :
  let st' := run sample_server sample_parser Mock.select
               [sample_press; Thread_run 0; Timer_fire 0] init in
  idle st'
  ∧ match outcome (scrape sample_server sample_parser Mock.select
                     (strip (py "http://h/"))
                     (if truthy (strip (py "p")) then Some (strip (py "p"))
                      else None)
                     (Some (strip (py "text"))) false) with
    | Return rs =>
        tree st' = populate_results rs
        ∧ status_var st' = scraped_status (length rs)
        ∧ dialogs st' = dialogs init
    | Raise e =>
        tree st' = tree init
        ∧ status_var st' = py "Error occurred."
        ∧ dialogs st' = dialogs init ++ [showerror (py "Error") (str_of_exception e)]
    end.
Proof.
  apply (scrape_then_poll sample_server sample_parser Mock.select
           (py "http://h/") (py "p") (py "text") false init).
  - repeat split; vm_compute; reflexivity.
  - vm_compute. discriminate.
  - right. vm_compute. discriminate.
Defined.
